(** * pdfsig: the command line front end for PDF signatures

    A shallow embedding of [utils/pdfsig.cc].  The program is a thin
    driver: it reads the parsed flags, opens a document, and then lists
    nicknames, adds a signature, signs a field, dumps the signatures or
    prints a report.  What it does is visible in its exit status, in the
    text it prints, and in the calls it makes on the document engine and
    on the certificate store.  The embedding therefore runs [main] in a
    small monad that threads the mutable state and records every such
    call, in order, in a trace. *)

From Stdlib Require Import Ascii String DecimalString.
From stdpp Require Import base numbers list strings.

Local Open Scope Z_scope.

(** * Machine integers *)

(** [unsigned int] and [int] are 32 bits wide. *)
Definition to_unsigned (z : Z) : Z := z mod 2 ^ 32.

Definition to_int (z : Z) : Z :=
  let u := z mod 2 ^ 32 in if u <? 2 ^ 31 then u else u - 2 ^ 32.

(** Decimal text of an integer, as [printf] gives it for [%d], [%u], [%lld]. *)
Definition dec (z : Z) : string := NilZero.string_of_int (Z.to_int z).

(** * Types of the document engine

    The headers that declare them are not among the sources; the
    enumerations list the values the program names, and one more for the
    [default] branch of each [switch]. *)

(** Modelled from the spec: [SignatureValidationStatus] of
    [SignatureInfo.h]: valid, invalid, digest mismatch, decoding error,
    not yet verified, and the other failures. *)
Inductive SignatureValidationStatus :=
| SIGNATURE_VALID
| SIGNATURE_INVALID
| SIGNATURE_DIGEST_MISMATCH
| SIGNATURE_DECODING_ERROR
| SIGNATURE_NOT_VERIFIED
| SIGNATURE_OTHER_FAILURE.

(** Modelled from the spec: [CertificateValidationStatus] of
    [SignatureInfo.h]. *)
Inductive CertificateValidationStatus :=
| CERTIFICATE_TRUSTED
| CERTIFICATE_UNTRUSTED_ISSUER
| CERTIFICATE_UNKNOWN_ISSUER
| CERTIFICATE_REVOKED
| CERTIFICATE_EXPIRED
| CERTIFICATE_NOT_VERIFIED
| CERTIFICATE_OTHER_ERROR.

(** Modelled from the spec: the hash algorithm tags of [hasht.h]. *)
Inductive HASH_HashType :=
| HASH_AlgMD2
| HASH_AlgMD5
| HASH_AlgSHA1
| HASH_AlgSHA256
| HASH_AlgSHA384
| HASH_AlgSHA512
| HASH_AlgSHA224
| HASH_AlgOther.

(** Modelled from the spec: [FormSignatureType] of [Form.h]. *)
Inductive FormSignatureType :=
| adbe_pkcs7_sha1
| adbe_pkcs7_detached
| ETSI_CAdES_detached
| unknown_signature_type.

Record SignatureInfo := {
  getSignerName : string;
  getSubjectDN : string;
  getSigningTime : Z;
  getHashAlgorithm : HASH_HashType;
  getSignatureValStatus : SignatureValidationStatus;
  getCertificateValStatus : CertificateValidationStatus
}.

(** The reason string after [utf8ToUtf16WithBom]; the conversion itself
    is the engine's and stays symbolic. *)
Inductive Utf16 := utf8ToUtf16WithBom (utf8 : string).

(** A signature field as the program sees it through its accessors.
    [getCheckedSignature] gives the signature, if any, together with the
    file size it stores through its pointer argument.  [signDocument] is
    the signing operation of the field's first widget; its outcome may
    depend on the signature type the field has at the call. *)
Record FormFieldSignature := {
  getSignature : option string;
  getCheckedSignature : option string * Z;
  getSignatureType : FormSignatureType;
  getSignedRangeBounds : list Z;
  getNumWidgets : Z;
  validateSignature : bool → bool → Z → bool → bool → SignatureInfo;
  signDocument : FormSignatureType → string → string → string →
                 option string → option Utf16 → bool
}.

Definition setSignatureType (t : FormSignatureType) (f : FormFieldSignature)
  : FormFieldSignature :=
  {| getSignature := getSignature f;
     getCheckedSignature := getCheckedSignature f;
     getSignatureType := t;
     getSignedRangeBounds := getSignedRangeBounds f;
     getNumWidgets := getNumWidgets f;
     validateSignature := validateSignature f;
     signDocument := signDocument f |}.

(** The arguments of [PDFDoc::sign] that the program chooses; the visual
    appearance arguments are constants in the source. *)
Record SignArgs := {
  sa_saveFilename : string;
  sa_certNickname : string;
  sa_password : option string;
  sa_partialFieldName : string;
  sa_page : Z;
  sa_reason : option Utf16;
  sa_ownerPassword : option string;
  sa_userPassword : option string
}.

Record PDFDoc := {
  isOk : bool;
  hasPage1 : bool;                             (* getPage(1) != nullptr *)
  getSignatureFields : list FormFieldSignature;
  sign : SignArgs → bool
}.

Record X509CertificateInfo := { getNickName : string }.

(** Modelled from the spec: the certificate store behind
    [SignatureHandler].  It may be locked by a password; it holds the
    signing identities. *)
Record NSSStore := {
  nss_locked : bool;
  nss_accepts : string → bool;
  nss_certificates : list X509CertificateInfo
}.

(** * Flags and invocation *)

(** The flag-backed globals after [parseArgs]. *)
Record Config := {
  nssDir : string;
  nssPassword : string;
  ownerPassword : string;
  userPassword : string;
  printVersion : bool;
  printHelp : bool;
  dontVerifyCert : bool;
  noOCSPRevocationCheck : bool;
  dumpSignatures : bool;
  etsiCAdESdetached : bool;
  signatureNumber : Z;
  certNickname : string;
  password : string;
  digestName : string;
  reason : string;
  listNicknames : bool;
  addNewSignature : bool;
  useAIACertFetch : bool;
  newSignatureFieldName : string
}.

(** The initial values of the globals. *)
Definition defaults : Config :=
  {| nssDir := ""; nssPassword := "";
     ownerPassword := String (ascii_of_nat 1) "";
     userPassword := String (ascii_of_nat 1) "";
     printVersion := false; printHelp := false;
     dontVerifyCert := false; noOCSPRevocationCheck := false;
     dumpSignatures := false; etsiCAdESdetached := false;
     signatureNumber := 0;
     certNickname := ""; password := ""; digestName := "SHA256";
     reason := ""; listNicknames := false; addNewSignature := false;
     useAIACertFetch := false; newSignatureFieldName := "" |}.

(** What [parseArgs] leaves: whether it succeeded, the flags, and the
    argument vector with the options removed (the program name first). *)
Record Invocation := {
  parseOk : bool;
  config : Config;
  argv : list string
}.

Definition argc (inv : Invocation) : Z := Z.of_nat (length (argv inv)).

(** The surroundings of one run. *)
Record World := {
  createPDFDoc : string → option string → option string → PDFDoc;
  nss : NSSStore;
  (** the successive outputs of the [mt19937] generator seeded from
      [random_device] *)
  mt19937 : nat → Z;
  (** [strftime] of [localtime] with the format of [getReadableTime] *)
  strftime_localtime : Z → string
}.

(** * Output *)

(** One constructor for each [printf] and [fprintf] of the program,
    with the values it formats. *)
Inductive Msg :=
| PasswordNeeded
| ProvideOneWithNssPwd
| PasswordNotAccepted
| ProvideCorrectWithNssPwd
| NoCertificatesAvailable
| NicknamesAvailable
| Nickname (nick : string)
| OutputFilenameNeeded
| NicknameNeeded
| EtsiNotSupported
| DigestNotSupported
| FileABugReport
| ErrorFirstPage
| NoSignatureWithNumber (file : string) (n : Z)
| AlreadySigned (n : Z)
| UnexpectedWidgets (n : Z)
| DumpingSignatures (count : Z)
| CannotDump (sig_num : Z)
| Dumped (sig_num : Z) (len : Z) (path : string)
| DigitalSignatureInfoOf (file : string)
| NoSignatures (file : string)
| SignatureHeader (n : Z)
| SignerCommonName (s : string)
| SignerDistinguishedName (s : string)
| SigningTime (time_str : string)
| HashAlgorithmLabel
| HashAlgorithmName (h : HASH_HashType)
| SignatureTypeLabel
| SignatureTypeName (t : FormSignatureType)
| SignedRanges (r0 r1 r2 r3 : Z)
| TotalDocumentSigned
| NotTotalDocumentSigned
| SignatureValidation (sig_vs : SignatureValidationStatus)
| CertificateValidation (cert_vs : CertificateValidationStatus).

Definition getReadableSigState (sig_vs : SignatureValidationStatus) : string :=
  match sig_vs with
  | SIGNATURE_VALID => "Signature is Valid."
  | SIGNATURE_INVALID => "Signature is Invalid."
  | SIGNATURE_DIGEST_MISMATCH => "Digest Mismatch."
  | SIGNATURE_DECODING_ERROR => "Document isn't signed or corrupted data."
  | SIGNATURE_NOT_VERIFIED => "Signature has not yet been verified."
  | _ => "Unknown Validation Failure."
  end.

Definition getReadableCertState (cert_vs : CertificateValidationStatus) : string :=
  match cert_vs with
  | CERTIFICATE_TRUSTED => "Certificate is Trusted."
  | CERTIFICATE_UNTRUSTED_ISSUER => "Certificate issuer isn't Trusted."
  | CERTIFICATE_UNKNOWN_ISSUER => "Certificate issuer is unknown."
  | CERTIFICATE_REVOKED => "Certificate has been Revoked."
  | CERTIFICATE_EXPIRED => "Certificate has Expired"
  | CERTIFICATE_NOT_VERIFIED => "Certificate has not yet been verified."
  | _ => "Unknown issue with Certificate or corrupted data."
  end.

Definition nl : string := String (ascii_of_nat 10) "".
Definition tab : string := String (ascii_of_nat 9) "".

(** The text of each message. *)
Definition render (m : Msg) : string :=
  match m with
  | PasswordNeeded => "Password is needed to access the NSS database." +:+ nl
  | ProvideOneWithNssPwd => tab +:+ "Please provide one with -nss-pwd." +:+ nl
  | PasswordNotAccepted =>
      "Password was not accepted to open the NSS database." +:+ nl
  | ProvideCorrectWithNssPwd =>
      tab +:+ "Please provide the correct one with -nss-pwd." +:+ nl
  | NoCertificatesAvailable => "There are no certificates available." +:+ nl
  | NicknamesAvailable => "Certificate nicknames available:" +:+ nl
  | Nickname nick => nick +:+ nl
  | OutputFilenameNeeded =>
      "An output filename for the signed document must be given" +:+ nl
  | NicknameNeeded =>
      "A nickname of the signing certificate must be given" +:+ nl
  | EtsiNotSupported => "-etsi is not supported yet with -add-signature" +:+ nl
  | DigestNotSupported =>
      "Only digest SHA256 is supported at the moment with -add-signature" +:+ nl
  | FileABugReport =>
      "Please file a bug report if this is important for you" +:+ nl
  | ErrorFirstPage => "Error getting first page of the document." +:+ nl
  | NoSignatureWithNumber file n =>
      "File '" +:+ file +:+ "' does not contain a signature with number "
      +:+ dec n +:+ nl
  | AlreadySigned n => "Signature number " +:+ dec n +:+ " is already signed" +:+ nl
  | UnexpectedWidgets n =>
      "Unexpected number of widgets for the signature: " +:+ dec n +:+ nl
  | DumpingSignatures count => "Dumping Signatures: " +:+ dec count +:+ nl
  | CannotDump sig_num => "Cannot dump signature #" +:+ dec sig_num +:+ nl
  | Dumped sig_num len path =>
      "Signature #" +:+ dec sig_num +:+ " (" +:+ dec len +:+ " bytes) => "
      +:+ path +:+ nl
  | DigitalSignatureInfoOf file => "Digital Signature Info of: " +:+ file +:+ nl
  | NoSignatures file =>
      "File '" +:+ file +:+ "' does not contain any signatures" +:+ nl
  | SignatureHeader n => "Signature #" +:+ dec n +:+ ":" +:+ nl
  | SignerCommonName s => "  - Signer Certificate Common Name: " +:+ s +:+ nl
  | SignerDistinguishedName s =>
      "  - Signer full Distinguished Name: " +:+ s +:+ nl
  | SigningTime time_str => "  - Signing Time: " +:+ time_str +:+ nl
  | HashAlgorithmLabel => "  - Signing Hash Algorithm: "
  | HashAlgorithmName h =>
      match h with
      | HASH_AlgMD2 => "MD2"
      | HASH_AlgMD5 => "MD5"
      | HASH_AlgSHA1 => "SHA1"
      | HASH_AlgSHA256 => "SHA-256"
      | HASH_AlgSHA384 => "SHA-384"
      | HASH_AlgSHA512 => "SHA-512"
      | HASH_AlgSHA224 => "SHA-224"
      | HASH_AlgOther => "unknown"
      end +:+ nl
  | SignatureTypeLabel => "  - Signature Type: "
  | SignatureTypeName t =>
      match t with
      | adbe_pkcs7_sha1 => "adbe.pkcs7.sha1"
      | adbe_pkcs7_detached => "adbe.pkcs7.detached"
      | ETSI_CAdES_detached => "ETSI.CAdES.detached"
      | unknown_signature_type => "unknown"
      end +:+ nl
  | SignedRanges r0 r1 r2 r3 =>
      "  - Signed Ranges: [" +:+ dec r0 +:+ " - " +:+ dec r1 +:+ "], ["
      +:+ dec r2 +:+ " - " +:+ dec r3 +:+ "]" +:+ nl
  | TotalDocumentSigned => "  - Total document signed" +:+ nl
  | NotTotalDocumentSigned => "  - Not total document signed" +:+ nl
  | SignatureValidation sig_vs =>
      "  - Signature Validation: " +:+ getReadableSigState sig_vs +:+ nl
  | CertificateValidation cert_vs =>
      "  - Certificate Validation: " +:+ getReadableCertState cert_vs +:+ nl
  end.

(** What a run does, in order: text on the two streams and calls on the
    engine, the store and the file system.  A field is named by its
    index in the vector of signature fields. *)
Inductive Event :=
| Stdout (m : Msg)
| Stderr (m : Msg)
| VersionBanner                               (* the three lines on stderr *)
| UsageText                                   (* printUsage, on stderr *)
| SetNSSDir (dir : string)
| NSSGetCertificates
| OpenDocument (fileName : string) (ownerPW userPW : option string)
| GetPage1
| DocSign (args : SignArgs)
| CallGetCheckedSignature (idx : nat)
| CallSetSignatureType (idx : nat) (t : FormSignatureType)
| CallSignDocument (idx : nat) (saveFilename certNickname digestName : string)
    (password : option string) (reason : option Utf16)
| CallValidateSignature (idx : nat) (doVerifyCert forceRevalidation : bool)
    (validationTime : Z) (ocspRevocationCheck enableAIA : bool)
| FileWrite (path : string) (content : string).

(** * The run monad *)

(** The state a run changes: the trace, the signature field objects of
    the opened document (the program holds pointers to them, so a change
    through one pointer is seen by all), the [static] flag of the
    password callback, the field name global, and how many numbers the
    generator has given. *)
Record State := {
  trace : list Event;
  fields : list FormFieldSignature;
  firstTime : bool;
  fieldName : string;
  drawn : nat
}.

(** A step gives a value, or leaves [main] with an exit status, or ends
    in the exception of [vector::at]. *)
Inductive Res (A : Type) :=
| Val (a : A)
| Exit (status : Z)
| OutOfRange.
Arguments Val {A} a.
Arguments Exit {A} status.
Arguments OutOfRange {A}.

Definition M (A : Type) : Type := State → Res A * State.

#[global] Instance M_ret : MRet M := λ A a s, (Val a, s).

#[global] Instance M_bind : MBind M := λ A B k m s,
  match m s with
  | (Val a, s') => k a s'
  | (Exit n, s') => (Exit n, s')
  | (OutOfRange, s') => (OutOfRange, s')
  end.

(** [return n;] in [main]. *)
Definition exit_with {A} (n : Z) : M A := λ s, (Exit n, s).

Definition throw_out_of_range {A} : M A := λ s, (OutOfRange, s).

Definition when (b : bool) (m : M unit) : M unit := if b then m else mret tt.

Definition with_trace (t : list Event) (s : State) : State :=
  {| trace := t; fields := fields s; firstTime := firstTime s;
     fieldName := fieldName s; drawn := drawn s |}.

Definition emit (e : Event) : M unit :=
  λ s, (Val tt, with_trace (trace s ++ [e]) s).

Definition printf (m : Msg) : M unit := emit (Stdout m).
Definition fprintf_stderr (m : Msg) : M unit := emit (Stderr m).

Definition get {A} (f : State → A) : M A := λ s, (Val (f s), s).

Definition set_fields (fs : list FormFieldSignature) : M unit :=
  λ s, (Val tt, {| trace := trace s; fields := fs; firstTime := firstTime s;
                   fieldName := fieldName s; drawn := drawn s |}).

Definition set_firstTime (b : bool) : M unit :=
  λ s, (Val tt, {| trace := trace s; fields := fields s; firstTime := b;
                   fieldName := fieldName s; drawn := drawn s |}).

Definition set_fieldName (n : string) : M unit :=
  λ s, (Val tt, {| trace := trace s; fields := fields s;
                   firstTime := firstTime s; fieldName := n;
                   drawn := drawn s |}).

Definition set_drawn (n : nat) : M unit :=
  λ s, (Val tt, {| trace := trace s; fields := fields s;
                   firstTime := firstTime s; fieldName := fieldName s;
                   drawn := n |}).

(** [signatures.at(i)]. *)
Definition at_ (i : Z) : M FormFieldSignature :=
  fs ← get fields;
  if i <? 0 then throw_out_of_range
  else match fs !! Z.to_nat i with
       | Some f => mret f
       | None => throw_out_of_range
       end.

Definition modify_field (idx : nat) (g : FormFieldSignature → FormFieldSignature)
  : M unit :=
  fs ← get fields;
  match fs !! idx with
  | Some f => set_fields (<[idx := g f]> fs)
  | None => throw_out_of_range
  end.

(** [for (unsigned int i = 0; i < sigCount; i++) body]: the indices in
    order. *)
Fixpoint for_each (indices : list Z) (body : Z → M unit) : M unit :=
  match indices with
  | [] => mret tt
  | i :: rest => body i;; for_each rest body
  end.

Fixpoint emit_all (es : list Event) : M unit :=
  match es with
  | [] => mret tt
  | e :: rest => emit e;; emit_all rest
  end.

(** The state in which [main] starts. *)
Definition initial (inv : Invocation) : State :=
  {| trace := []; fields := []; firstTime := true;
     fieldName := newSignatureFieldName (config inv); drawn := 0 |}.

(** * Helpers of the engine that the program calls *)

(** Modelled from the spec: [numberOfCharacters] of
    [numberofcharacters.h], the number of decimal digits of its
    argument.  An [unsigned int] has at most ten. *)
Fixpoint decimal_digits (fuel : nat) (n : Z) : Z :=
  match fuel with
  | O => 1
  | S fuel' => if n <? 10 then 1 else 1 + decimal_digits fuel' (n / 10)
  end.

Definition numberOfCharacters (n : Z) : Z := decimal_digits 9 n.

Fixpoint zeros (n : nat) : string :=
  match n with
  | O => ""
  | S n' => String "0" (zeros n')
  end.

(** Modelled from the spec: an integer field of [GooString::format]
    with a width, [{1:Xd}]: the decimal digits, with zeros in front up to
    the width. *)
Definition zero_pad (width : Z) (n : Z) : string :=
  let digits := dec (Z.abs n) in
  (if n <? 0 then "-" else "")
  +:+ zeros (Z.to_nat width - String.length digits) +:+ digits.

(** Modelled from the spec: the two calls of [GooString::format] in
    [dumpSignature].  The first builds the format [{0:s}.sig{1:Xd}] with
    [X] the width; the second fills it with the base name and the
    number. *)
Definition GooString_format_sig (width : Z) (base : string) (sig_num : Z)
  : string :=
  base +:+ ".sig" +:+ zero_pad width sig_num.

Fixpoint has_slash (s : string) : bool :=
  match s with
  | EmptyString => false
  | String c rest => if Ascii.eqb c "/" then true else has_slash rest
  end.

(** Modelled from the spec: [gbasename] of [goo/gbasename.cc], the last
    component of a path. *)
Fixpoint gbasename (s : string) : string :=
  match s with
  | EmptyString => EmptyString
  | String c rest =>
      if has_slash rest then gbasename rest
      else if Ascii.eqb c "/" then rest else s
  end.

(** [std::uniform_int_distribution<>(a, b)] applied to the generator:
    a number of the closed range from [a] to [b], decided by the
    generator's next output. *)
Definition uniform_int_distribution (a b : Z) (w : World) : M Z :=
  k ← get drawn;
  set_drawn (S k);;
  mret (a + mt19937 w k mod (b - a + 1)).

(** * The program *)

Definition print_version_usage (usage : bool) : M unit :=
  emit VersionBanner;;
  when usage (emit UsageText).

(** The locals of [getAvailableSigningCertificates] that the password
    callback captures by reference. *)
Record CallbackFlags := {
  wrongPassword : bool;
  passwordNeeded : bool
}.

Definition passwordCallback (cfg : Config) (fl : CallbackFlags)
  : M (option string * CallbackFlags) :=
  ft ← get firstTime;
  if negb ft then
    mret (None, {| wrongPassword := true; passwordNeeded := passwordNeeded fl |})
  else
    set_firstTime false;;
    if (0 <? String.length (nssPassword cfg))%nat then
      mret (Some (nssPassword cfg), fl)
    else
      mret (None, {| wrongPassword := wrongPassword fl; passwordNeeded := true |}).

(** Modelled from the spec: [SignatureHandler::getAvailableSigningCertificates].
    An open store gives its identities.  A locked store asks the
    callback for the password; with no password, or after a rejected one
    (it then asks once more), it gives no identities. *)
Definition SignatureHandler_getAvailableSigningCertificates
    (store : NSSStore)
    (callback : CallbackFlags → M (option string * CallbackFlags))
    (fl : CallbackFlags) : M (list X509CertificateInfo * CallbackFlags) :=
  emit NSSGetCertificates;;
  if negb (nss_locked store) then mret (nss_certificates store, fl)
  else
    '(reply, fl1) ← callback fl;
    match reply with
    | None => mret ([], fl1)
    | Some pw =>
        if nss_accepts store pw then mret (nss_certificates store, fl1)
        else '(_, fl2) ← callback fl1; mret ([], fl2)
    end.

(** The result is the [error] flag and the vector of certificates. *)
Definition getAvailableSigningCertificates (cfg : Config) (w : World)
  : M (bool * list X509CertificateInfo) :=
  '(vCerts, fl) ← SignatureHandler_getAvailableSigningCertificates (nss w)
                    (passwordCallback cfg)
                    {| wrongPassword := false; passwordNeeded := false |};
  if passwordNeeded fl then
    printf PasswordNeeded;;
    printf ProvideOneWithNssPwd;;
    mret (true, [])
  else if wrongPassword fl then
    printf PasswordNotAccepted;;
    printf ProvideCorrectWithNssPwd;;
    mret (true, [])
  else mret (false, vCerts).

Definition dumpSignature (sig_num sigCount : Z) (s : FormFieldSignature)
    (filename : string) : M bool :=
  match getSignature s with
  | None =>
      printf (CannotDump sig_num);;
      mret false
  | Some signature =>
      let sigCountLength := numberOfCharacters (to_unsigned sigCount) in
      let path :=
        GooString_format_sig sigCountLength (gbasename filename) sig_num in
      printf (Dumped sig_num (Z.of_nat (String.length signature)) path);;
      emit (FileWrite path signature);;
      mret true
  end.

(** A password buffer still holding its initial [\001] gives no
    password. *)
Definition password_option (buffer : string) : option string :=
  match buffer with
  | String c _ => if Ascii.eqb c (ascii_of_nat 1) then None else Some buffer
  | EmptyString => Some buffer
  end.

Definition nonempty (s : string) : option string :=
  if (String.length s =? 0)%nat then None else Some s.

Definition reason_option (cfg : Config) : option Utf16 :=
  if (String.length (reason cfg) =? 0)%nat then None
  else Some (utf8ToUtf16WithBom (reason cfg)).

(** [value < 10 ? 48 + value : 65 + (value - 10)], as a character. *)
Definition hex_char (value : Z) : ascii :=
  ascii_of_nat (Z.to_nat (if value <? 10 then 48 + value else 65 + (value - 10))).

(** The loop that builds the random field name, [n] characters long. *)
Fixpoint append_random_name (w : World) (n : nat) : M unit :=
  match n with
  | O => mret tt
  | S n' =>
      value ← uniform_int_distribution 1 15 w;
      name ← get fieldName;
      set_fieldName (name +:+ String (hex_char value) "");;
      append_random_name w n'
  end.

(** [main], the branch of [-add-signature]. *)
Definition add_signature (inv : Invocation) (w : World) (doc : PDFDoc)
    (ownerPW userPW : option string) : M unit :=
  let cfg := config inv in
  when (argc inv =? 2) (
    fprintf_stderr OutputFilenameNeeded;;
    exit_with 2);;
  when (String.length (certNickname cfg) =? 0)%nat (
    printf NicknameNeeded;;
    exit_with 2);;
  when (etsiCAdESdetached cfg) (
    printf EtsiNotSupported;;
    printf FileABugReport;;
    exit_with 2);;
  when (negb (String.eqb (digestName cfg) "SHA256")) (
    printf DigestNotSupported;;
    printf FileABugReport;;
    exit_with 2);;
  emit GetPage1;;
  when (negb (hasPage1 doc)) (
    printf ErrorFirstPage;;
    exit_with 2);;
  '(getCertsError, _) ← getAvailableSigningCertificates cfg w;
  when getCertsError (exit_with 2);;
  let pw := nonempty (password cfg) in
  let rs := reason_option cfg in
  name0 ← get fieldName;
  when (String.length name0 =? 0)%nat (append_random_name w 32);;
  name ← get fieldName;
  let args :=
    {| sa_saveFilename := nth 2 (argv inv) ""; sa_certNickname := certNickname cfg;
       sa_password := pw; sa_partialFieldName := name; sa_page := 1;
       sa_reason := rs; sa_ownerPassword := ownerPW;
       sa_userPassword := userPW |} in
  emit (DocSign args);;
  exit_with (if sign doc args then 0 else 3).

(** [main], the branch of [-sign <N>], from the field on. *)
Definition sign_target (inv : Invocation) : M unit :=
  let cfg := config inv in
  let idx := Z.to_nat (signatureNumber cfg - 1) in
  ffs ← at_ (signatureNumber cfg - 1);
  emit (CallGetCheckedSignature idx);;
  when (bool_decide (is_Some (fst (getCheckedSignature ffs)))) (
    printf (AlreadySigned (signatureNumber cfg));;
    exit_with 2);;
  when (etsiCAdESdetached cfg) (
    emit (CallSetSignatureType idx ETSI_CAdES_detached);;
    modify_field idx (setSignatureType ETSI_CAdES_detached));;
  let pw := nonempty (password cfg) in
  let rs := reason_option cfg in
  ffs ← at_ (signatureNumber cfg - 1);
  when (negb (getNumWidgets ffs =? 1)) (
    printf (UnexpectedWidgets (getNumWidgets ffs));;
    exit_with 2);;
  emit (CallSignDocument idx (nth 2 (argv inv) "") (certNickname cfg)
          (digestName cfg) pw rs);;
  exit_with (if signDocument ffs (getSignatureType ffs) (nth 2 (argv inv) "")
                  (certNickname cfg) (digestName cfg) pw rs
             then 0 else 3).

(** [main], the branch of [-sign <N>]. *)
Definition sign_field (inv : Invocation) (w : World) (fileName : string)
    (sigCount : Z) : M unit :=
  let cfg := config inv in
  when (argc inv =? 2) (
    fprintf_stderr OutputFilenameNeeded;;
    exit_with 2);;
  when (to_int sigCount <? signatureNumber cfg) (
    printf (NoSignatureWithNumber fileName (signatureNumber cfg));;
    exit_with 2);;
  when (String.length (certNickname cfg) =? 0)%nat (
    printf NicknameNeeded;;
    exit_with 2);;
  '(getCertsError, _) ← getAvailableSigningCertificates cfg w;
  when getCertsError (exit_with 2);;
  sign_target inv.

#[global] Instance SignatureValidationStatus_eq_dec :
  EqDecision SignatureValidationStatus := ltac:(solve_decision).

(** The part of a turn of the report loop about the signed ranges. *)
Definition report_ranges (i : Z) (f : FormFieldSignature) : list Event :=
  match getSignedRangeBounds f with
  | [r0; r1; r2; r3] =>
      let '(signature, checked_file_size) := getCheckedSignature f in
      [ Stdout (SignedRanges r0 r1 r2 r3);
        CallGetCheckedSignature (Z.to_nat i);
        Stdout (if bool_decide (is_Some signature) && (checked_file_size =? r3)
                then TotalDocumentSigned else NotTotalDocumentSigned) ]
  | _ => []
  end.

(** One turn of the report loop, for the field [f] at index [i]: it
    changes nothing, so it is given by what it prints and calls. *)
Definition report_signature (cfg : Config) (w : World) (i : Z)
    (f : FormFieldSignature) : list Event :=
  let sig_info :=
    validateSignature f (negb (dontVerifyCert cfg)) false (-1)
      (negb (noOCSPRevocationCheck cfg)) (useAIACertFetch cfg) in
  [ CallValidateSignature (Z.to_nat i) (negb (dontVerifyCert cfg)) false (-1)
      (negb (noOCSPRevocationCheck cfg)) (useAIACertFetch cfg);
    Stdout (SignatureHeader (to_unsigned (i + 1)));
    Stdout (SignerCommonName (getSignerName sig_info));
    Stdout (SignerDistinguishedName (getSubjectDN sig_info));
    Stdout (SigningTime (strftime_localtime w (getSigningTime sig_info)));
    Stdout HashAlgorithmLabel;
    Stdout (HashAlgorithmName (getHashAlgorithm sig_info));
    Stdout SignatureTypeLabel;
    Stdout (SignatureTypeName (getSignatureType f)) ]
  ++ report_ranges i f
  ++ [ Stdout (SignatureValidation (getSignatureValStatus sig_info)) ]
  ++ (if bool_decide (getSignatureValStatus sig_info ≠ SIGNATURE_VALID)
         || dontVerifyCert cfg
      then []
      else [ Stdout (CertificateValidation (getCertificateValStatus sig_info)) ]).

(** [main], dumping and reporting. *)
Definition dump_or_report (inv : Invocation) (w : World) (fileName : string)
    (sigCount : Z) : M unit :=
  let cfg := config inv in
  when (2 <? argc inv) (
    print_version_usage true;;
    exit_with 99);;
  (if 1 <=? sigCount then
     if dumpSignatures cfg then
       printf (DumpingSignatures sigCount);;
       for_each (seqZ 0 sigCount) (λ i,
         s ← at_ i;
         dumpingOk ← dumpSignature (to_int i) (to_int sigCount) s fileName;
         when (negb dumpingOk) (exit_with 3));;
       exit_with 0
     else
       printf (DigitalSignatureInfoOf fileName)
   else
     printf (NoSignatures fileName);;
     exit_with 2);;
  for_each (seqZ 0 sigCount) (λ i,
    s ← at_ i;
    emit_all (report_signature cfg w i s));;
  exit_with 0.

(** [main] once the document is open. *)
Definition process_document (inv : Invocation) (w : World) (doc : PDFDoc)
    (fileName : string) (ownerPW userPW : option string) : M unit :=
  let cfg := config inv in
  when (addNewSignature cfg && (0 <? signatureNumber cfg)) (
    print_version_usage true;;
    exit_with 99);;
  when (addNewSignature cfg) (add_signature inv w doc ownerPW userPW);;
  set_fields (getSignatureFields doc);;
  let sigCount := to_unsigned (Z.of_nat (length (getSignatureFields doc))) in
  when (0 <? signatureNumber cfg) (sign_field inv w fileName sigCount);;
  dump_or_report inv w fileName sigCount.

Definition main (inv : Invocation) (w : World) : M unit :=
  let cfg := config inv in
  when (negb (parseOk inv)) (
    print_version_usage true;;
    exit_with 99);;
  when (printVersion cfg) (
    print_version_usage false;;
    exit_with 0);;
  when (printHelp cfg) (
    print_version_usage true;;
    exit_with 0);;
  emit (SetNSSDir (nssDir cfg));;
  when (listNicknames cfg) (
    '(getCertsError, vCerts) ← getAvailableSigningCertificates cfg w;
    when getCertsError (exit_with 2);;
    match vCerts with
    | [] => printf NoCertificatesAvailable
    | _ =>
        printf NicknamesAvailable;;
        emit_all (map (λ cert, Stdout (Nickname (getNickName cert))) vCerts)
    end;;
    exit_with 0);;
  when (argc inv <? 2) (
    print_version_usage true;;
    exit_with 99);;
  let fileName := nth 1 (argv inv) "" in
  let ownerPW := password_option (ownerPassword cfg) in
  let userPW := password_option (userPassword cfg) in
  emit (OpenDocument fileName ownerPW userPW);;
  let doc := createPDFDoc w fileName ownerPW userPW in
  when (negb (isOk doc)) (exit_with 1);;
  process_document inv w doc fileName ownerPW userPW.

(** The exit status and the final state of a run. *)
Definition run (inv : Invocation) (w : World) : Res unit * State :=
  main inv w (initial inv).

Definition status (r : Res unit * State) : Res unit := fst r.
Definition final (r : Res unit * State) : State := snd r.

(** * Vocabulary of the statements *)

(** The arguments of the call that opens the document, and its result. *)
Definition fileName_of (inv : Invocation) : string := nth 1 (argv inv) "".
Definition ownerPW_of (inv : Invocation) : option string :=
  password_option (ownerPassword (config inv)).
Definition userPW_of (inv : Invocation) : option string :=
  password_option (userPassword (config inv)).
Definition document (inv : Invocation) (w : World) : PDFDoc :=
  createPDFDoc w (fileName_of inv) (ownerPW_of inv) (userPW_of inv).

(** The flags parsed, and none of [-v], [-h], [-list-nicks] given: the
    run gets as far as looking for the input file. *)
Definition past_listing (inv : Invocation) : Prop :=
  parseOk inv = true ∧ printVersion (config inv) = false
  ∧ printHelp (config inv) = false ∧ listNicknames (config inv) = false.

(** Moreover an input file is named and it opens. *)
Definition opens (inv : Invocation) (w : World) : Prop :=
  past_listing inv ∧ 2 ≤ argc inv ∧ isOk (document inv w) = true.

(** The count of signature fields, as [main] holds it in an
    [unsigned int]. *)
Definition sigCount_of (doc : PDFDoc) : Z :=
  to_unsigned (Z.of_nat (length (getSignatureFields doc))).

(** The store gives its certificates: it is not locked, or [-nss-pwd]
    gives a password that it accepts. *)
Definition store_opens (cfg : Config) (w : World) : bool :=
  negb (nss_locked (nss w))
  || ((0 <? String.length (nssPassword cfg))%nat
      && nss_accepts (nss w) (nssPassword cfg)).

(** The files written in a run, in order. *)
Definition file_writes (t : list Event) : list (string * string) :=
  omap (λ e, match e with FileWrite p c => Some (p, c) | _ => None end) t.

(** The signatures of the fields up to the first that has none. *)
Fixpoint signed_prefix (fs : list FormFieldSignature) : list string :=
  match fs with
  | [] => []
  | f :: rest =>
      match getSignature f with
      | Some signature => signature :: signed_prefix rest
      | None => []
      end
  end.

(** What the report loop does for the fields [fs], the first of which
    has index [i]. *)
Fixpoint report_all (cfg : Config) (w : World) (i : Z)
    (fs : list FormFieldSignature) : list Event :=
  match fs with
  | [] => []
  | f :: rest => report_signature cfg w i f ++ report_all cfg w (i + 1) rest
  end.

(** The number by which a message names a signature field, if it names
    one. *)
Definition ordinal_named (m : Msg) : option Z :=
  match m with
  | SignatureHeader n => Some n
  | CannotDump n => Some n
  | Dumped n _ _ => Some n
  | AlreadySigned n => Some n
  | _ => None
  end.

Definition is_sign_call (e : Event) : bool :=
  match e with
  | CallSignDocument _ _ _ _ _ _ => true
  | _ => false
  end.

(** The characters [append_random_name] adds when the generator has
    already given [k] numbers. *)
Fixpoint random_name (w : World) (k : nat) (n : nat) : string :=
  match n with
  | O => ""
  | S n' => String (hex_char (1 + mt19937 w k mod 15)) (random_name w (S k) n')
  end.

(** The state when the document has just been opened. *)
Definition opened_state (inv : Invocation) : State :=
  with_trace [SetNSSDir (nssDir (config inv));
              OpenDocument (fileName_of inv) (ownerPW_of inv) (userPW_of inv)]
    (initial inv).

(** The state when [main] has fetched the signature fields. *)
Definition fields_state (inv : Invocation) (w : World) : State :=
  {| trace := trace (opened_state inv);
     fields := getSignatureFields (document inv w);
     firstTime := true; fieldName := newSignatureFieldName (config inv);
     drawn := 0 |}.

(** [s'] is [s] with the events [es] added to its trace, the [static]
    flag of the password callback apart. *)
Definition adds (es : list Event) (s s' : State) : Prop :=
  trace s' = trace s ++ es ∧ fields s' = fields s
  ∧ fieldName s' = fieldName s ∧ drawn s' = drawn s.

(** The conditions under which [-sign <N>] gets to the certificate
    store: an output file, a number within the count, a nickname. *)
Definition sign_request (inv : Invocation) (sigCount : Z) : Prop :=
  3 ≤ argc inv
  ∧ 0 < signatureNumber (config inv) ≤ to_int sigCount
  ∧ certNickname (config inv) ≠ "".

(** The conditions under which [-add-signature] gets to the signing
    call. *)
Definition add_request (inv : Invocation) (w : World) : Prop :=
  opens inv w ∧ addNewSignature (config inv) = true
  ∧ signatureNumber (config inv) ≤ 0 ∧ 3 ≤ argc inv
  ∧ certNickname (config inv) ≠ "" ∧ etsiCAdESdetached (config inv) = false
  ∧ digestName (config inv) = "SHA256" ∧ hasPage1 (document inv w) = true
  ∧ store_opens (config inv) w = true.

(** The arguments of the call of [PDFDoc::sign] when the field name is
    [name]. *)
Definition sign_args (inv : Invocation) (name : string) : SignArgs :=
  {| sa_saveFilename := nth 2 (argv inv) "";
     sa_certNickname := certNickname (config inv);
     sa_password := nonempty (password (config inv));
     sa_partialFieldName := name; sa_page := 1;
     sa_reason := reason_option (config inv);
     sa_ownerPassword := ownerPW_of inv; sa_userPassword := userPW_of inv |}.

(** Neither signing mode, one file name, no [-dump]. *)
Definition report_mode (inv : Invocation) (w : World) : Prop :=
  opens inv w ∧ argc inv = 2 ∧ addNewSignature (config inv) = false
  ∧ signatureNumber (config inv) ≤ 0 ∧ dumpSignatures (config inv) = false.

(** Neither signing mode, one file name, [-dump]. *)
Definition dump_mode (inv : Invocation) (w : World) : Prop :=
  opens inv w ∧ argc inv = 2 ∧ addNewSignature (config inv) = false
  ∧ signatureNumber (config inv) ≤ 0 ∧ dumpSignatures (config inv) = true.

(** The name the specification gives to the file for the signature of
    index [i] among [count]: the base name, [.sig], and the index with
    zeros in front up to the number of digits of the count. *)
Definition dump_name (file : string) (count i : Z) : string :=
  gbasename file +:+ ".sig" +:+ zero_pad (numberOfCharacters count) i.

(** What one call of [dumpSignature] prints and writes. *)
Definition dump_one (file : string) (count i : Z) (f : FormFieldSignature)
  : list Event :=
  match getSignature f with
  | None => [Stdout (CannotDump i)]
  | Some signature =>
      [Stdout (Dumped i (Z.of_nat (String.length signature))
                 (dump_name file count i));
       FileWrite (dump_name file count i) signature]
  end.

(** What the dump loop does for the fields [fs], the first of which has
    index [i]: it stops at the first field without a signature. *)
Fixpoint dump_all (file : string) (count i : Z) (fs : list FormFieldSignature)
  : list Event :=
  match fs with
  | [] => []
  | f :: rest =>
      dump_one file count i f
      ++ (if bool_decide (is_Some (getSignature f))
          then dump_all file count (i + 1) rest else [])
  end.

Definition all_signed (fs : list FormFieldSignature) : bool :=
  forallb (λ f, bool_decide (is_Some (getSignature f))) fs.

(** The run leaves [main] with one of the statuses [codes]. *)
Definition exits_with {A} (codes : list Z) (r : Res A * State) : Prop :=
  ∃ n, fst r = Exit n ∧ n ∈ codes.

(** The calls and writes by which a run changes the document or the
    file system. *)
Definition is_change (e : Event) : bool :=
  match e with
  | DocSign _ | CallSetSignatureType _ _ | CallSignDocument _ _ _ _ _ _
  | FileWrite _ _ => true
  | _ => false
  end.

(** The arguments of the calls of [validateSignature] in a run, in
    order, each with the index of its field. *)
Definition validate_calls (t : list Event)
  : list (nat * (bool * bool * Z * bool * bool)) :=
  omap (λ e, match e with
             | CallValidateSignature idx cert force time ocsp aia =>
                 Some (idx, (cert, force, time, ocsp, aia))
             | _ => None
             end) t.

(** The two lines [getAvailableSigningCertificates] prints when the
    locked store cannot be read: no password was given, or the one given
    was not accepted. *)
Definition store_error_lines (cfg : Config) : list Event :=
  if (0 <? String.length (nssPassword cfg))%nat
  then [Stdout PasswordNotAccepted; Stdout ProvideCorrectWithNssPwd]
  else [Stdout PasswordNeeded; Stdout ProvideOneWithNssPwd].

(** The conditions that [-add-signature] checks before the signing
    call, the input document apart. *)
Definition add_conditions (inv : Invocation) (w : World) : Prop :=
  3 ≤ argc inv ∧ certNickname (config inv) ≠ ""
  ∧ etsiCAdESdetached (config inv) = false
  ∧ digestName (config inv) = "SHA256" ∧ hasPage1 (document inv w) = true
  ∧ store_opens (config inv) w = true.

(** The conditions under which [-sign <N>] gets to the signing call:
    those of [sign_request], a store that gives its certificates, and a
    field of number [N] that is not yet signed and has one widget. *)
Definition sign_conditions (inv : Invocation) (w : World) : Prop :=
  sign_request inv (sigCount_of (document inv w))
  ∧ store_opens (config inv) w = true
  ∧ ∃ f, getSignatureFields (document inv w)
           !! Z.to_nat (signatureNumber (config inv) - 1) = Some f
         ∧ fst (getCheckedSignature f) = None ∧ getNumWidgets f = 1.

(** Every event that the step [m] adds to the trace satisfies [Q],
    from whatever state it starts. *)
Definition extends {A} (Q : Event → bool) (m : M A) : Prop :=
  ∀ s, ∃ es, trace (snd (m s)) = trace s ++ es ∧ forallb Q es = true.

(** The mode to which a call or a write belongs: the signing call of
    the document to [-add-signature] alone, the calls on a field to
    [-sign <N>] alone, the writing of a file to [-dump] with neither
    signing mode. *)
Definition in_its_mode (inv : Invocation) (e : Event) : bool :=
  let cfg := config inv in
  match e with
  | DocSign _ => addNewSignature cfg && negb (0 <? signatureNumber cfg)
  | CallSetSignatureType _ _ | CallSignDocument _ _ _ _ _ _ =>
      negb (addNewSignature cfg) && (0 <? signatureNumber cfg)
  | FileWrite _ _ =>
      negb (addNewSignature cfg) && negb (0 <? signatureNumber cfg)
      && dumpSignatures cfg
  | _ => true
  end.

(** The step [m] never goes on to what follows it: it leaves [main] or
    throws. *)
Definition stops {A} (m : M A) : Prop := ∀ s a, fst (m s) ≠ Val a.

(** * Sample runs *)

Module Sample.

Definition flags (dump etsi add : bool) (sign_number : Z) (nick : string)
  : Config :=
  {| nssDir := ""; nssPassword := "";
     ownerPassword := String (ascii_of_nat 1) "";
     userPassword := String (ascii_of_nat 1) "";
     printVersion := false; printHelp := false;
     dontVerifyCert := false; noOCSPRevocationCheck := false;
     dumpSignatures := dump; etsiCAdESdetached := etsi;
     signatureNumber := sign_number;
     certNickname := nick; password := ""; digestName := "SHA256";
     reason := ""; listNicknames := false; addNewSignature := add;
     useAIACertFetch := false; newSignatureFieldName := "" |}.

Definition invocation (cfg : Config) (args : list string) : Invocation :=
  {| parseOk := true; config := cfg; argv := "pdfsig" :: args |}.

Definition info : SignatureInfo :=
  {| getSignerName := "Ann"; getSubjectDN := "CN=Ann"; getSigningTime := 0;
     getHashAlgorithm := HASH_AlgSHA256;
     getSignatureValStatus := SIGNATURE_VALID;
     getCertificateValStatus := CERTIFICATE_TRUSTED |}.

(** A field with the signature [abc] over a file of 100 bytes. *)
Definition signed_field : FormFieldSignature :=
  {| getSignature := Some "abc"; getCheckedSignature := (Some "abc", 100);
     getSignatureType := adbe_pkcs7_detached;
     getSignedRangeBounds := [0; 10; 20; 100]; getNumWidgets := 1;
     validateSignature := λ _ _ _ _ _, info;
     signDocument := λ _ _ _ _ _ _, true |}.

(** A field not yet signed, with the given number of widgets. *)
Definition empty_field (widgets : Z) : FormFieldSignature :=
  {| getSignature := None; getCheckedSignature := (None, 0);
     getSignatureType := adbe_pkcs7_detached;
     getSignedRangeBounds := []; getNumWidgets := widgets;
     validateSignature := λ _ _ _ _ _, info;
     signDocument := λ _ _ _ _ _ _, true |}.

Definition doc (ok : bool) (fs : list FormFieldSignature) : PDFDoc :=
  {| isOk := ok; hasPage1 := true; getSignatureFields := fs;
     sign := λ _, true |}.

(** A world in which every file opens as a document with the fields
    [fs] (or fails to open, when [ok] is false), and whose store is
    locked or not. *)
Definition world (ok locked : bool) (fs : list FormFieldSignature) : World :=
  {| createPDFDoc := λ _ _ _, doc ok fs;
     nss := {| nss_locked := locked; nss_accepts := λ _, false;
               nss_certificates := [] |};
     mt19937 := λ k, Z.of_nat k;
     strftime_localtime := λ _, "Jan 01 1970 00:00:00" |}.

(** The invocations of the sample runs. *)
Definition inv_add_and_sign : Invocation :=
  invocation (flags false false true 1 "me") ["in.pdf"; "out.pdf"].
Definition inv_add : Invocation :=
  invocation (flags false false true 0 "me") ["in.pdf"; "out.pdf"].
Definition inv_add_no_output : Invocation :=
  invocation (flags false false true 0 "me") ["in.pdf"].
Definition inv_no_file : Invocation :=
  invocation (flags false false false 0 "") [].
Definition inv_dump : Invocation :=
  invocation (flags true false false 0 "") ["dir/in.pdf"].
Definition inv_report : Invocation :=
  invocation (flags false false false 0 "") ["in.pdf"].
Definition inv_sign : Invocation :=
  invocation (flags false false false 1 "me") ["in.pdf"; "out.pdf"].
Definition inv_sign_etsi : Invocation :=
  invocation (flags false true false 1 "me") ["in.pdf"; "out.pdf"].

(** Flags for the sample runs that need more than [flags] sets. *)
Definition flags_more (version help list : bool) (nss_pwd field_name : string)
    (cfg : Config) : Config :=
  {| nssDir := nssDir cfg; nssPassword := nss_pwd;
     ownerPassword := ownerPassword cfg; userPassword := userPassword cfg;
     printVersion := version; printHelp := help;
     dontVerifyCert := dontVerifyCert cfg;
     noOCSPRevocationCheck := noOCSPRevocationCheck cfg;
     dumpSignatures := dumpSignatures cfg;
     etsiCAdESdetached := etsiCAdESdetached cfg;
     signatureNumber := signatureNumber cfg;
     certNickname := certNickname cfg; password := password cfg;
     digestName := digestName cfg; reason := reason cfg;
     listNicknames := list; addNewSignature := addNewSignature cfg;
     useAIACertFetch := useAIACertFetch cfg;
     newSignatureFieldName := field_name |}.

Definition inv_version : Invocation :=
  invocation (flags_more true true false "" "" (flags false false false 0 ""))
    ["in.pdf"].
Definition inv_list_nicks : Invocation :=
  invocation (flags_more false false true "" "" (flags false false false 0 ""))
    ["in.pdf"].
Definition inv_add_named : Invocation :=
  invocation (flags_more false false false "" "Sig1" (flags false false true 0 "me"))
    ["in.pdf"; "out.pdf"].
Definition inv_sign_third : Invocation :=
  invocation (flags false false false 3 "me") ["in.pdf"; "out.pdf"].
Definition inv_report_two_files : Invocation :=
  invocation (flags false false false 0 "") ["in.pdf"; "other.pdf"].

(** A world whose open store holds two certificates. *)
Definition world_two_certificates : World :=
  {| createPDFDoc := λ _ _ _, doc true [];
     nss := {| nss_locked := false; nss_accepts := λ _, false;
               nss_certificates :=
                 [{| getNickName := "alice" |}; {| getNickName := "bob" |}] |};
     mt19937 := λ k, Z.of_nat k;
     strftime_localtime := λ _, "Jan 01 1970 00:00:00" |}.

End Sample.

(** * Running the program *)

Ltac unfold_monad :=
  cbv [mbind M_bind mret M_ret when emit printf fprintf_stderr exit_with
       throw_out_of_range print_version_usage get set_fields set_firstTime
       set_fieldName set_drawn].

Lemma with_trace_same s : with_trace (trace s) s = s.
Proof. by destruct s. Qed.

Lemma to_int_small z : 0 ≤ z < 2 ^ 31 → to_int z = z.
Proof.
  intros Hz. unfold to_int. rewrite Z.mod_small by lia.
  assert (H : (z <? 2 ^ 31) = true) by lia. by rewrite H.
Qed.

Lemma to_unsigned_small z : 0 ≤ z < 2 ^ 32 → to_unsigned z = z.
Proof. intros Hz. unfold to_unsigned. by rewrite Z.mod_small. Qed.

Lemma sigCount_le_length doc :
  0 ≤ sigCount_of doc ≤ Z.of_nat (length (getSignatureFields doc)).
Proof.
  unfold sigCount_of, to_unsigned. split; [apply Z.mod_pos_bound; lia|].
  apply Z.mod_le; lia.
Qed.

Lemma length_eqb_0 (s : string) : s ≠ "" → (String.length s =? 0)%nat = false.
Proof. by destruct s. Qed.

Lemma append_snoc (a : string) (c : ascii) (r : string) :
  (a +:+ String c "") +:+ r = a +:+ String c r.
Proof.
  induction a as [|x a IH]; [done|].
  change (String x ((a +:+ String c "") +:+ r) = String x (a +:+ String c r)).
  by rewrite IH.
Qed.

Lemma append_empty_r (a : string) : a +:+ "" = a.
Proof.
  induction a as [|x a IH]; [done|].
  change (String x (a +:+ "") = String x a). by rewrite IH.
Qed.

Lemma at_lookup i f s :
  0 ≤ i → fields s !! Z.to_nat i = Some f → at_ i s = (Val f, s).
Proof.
  intros Hi Hf. unfold at_. unfold_monad.
  assert (H : (i <? 0) = false) by lia. by rewrite H, Hf.
Qed.

Lemma emit_all_trace es : ∀ s,
  emit_all es s = (Val tt, with_trace (trace s ++ es) s).
Proof.
  induction es as [|e es IH]; intros s; cbn.
  - by rewrite app_nil_r, with_trace_same.
  - unfold_monad. rewrite IH. cbn. by rewrite <- app_assoc.
Qed.

#[local] Arguments emit_all : simpl never.
#[local] Arguments report_signature : simpl never.

(** ** Up to the document *)

Lemma run_to_open inv w :
  past_listing inv → 2 ≤ argc inv →
  run inv w =
    if isOk (document inv w) then
      process_document inv w (document inv w) (fileName_of inv)
        (ownerPW_of inv) (userPW_of inv) (opened_state inv)
    else (Exit 1, opened_state inv).
Proof.
  intros (Hp & Hv & Hh & Hl) Hargc.
  assert (H1 : (argc inv <? 2) = false) by lia.
  unfold run, main. rewrite Hp, Hv, Hh, Hl, H1.
  unfold_monad. cbn.
  change (createPDFDoc w _ _ _) with (document inv w).
  destruct (isOk (document inv w)); reflexivity.
Qed.

Lemma run_opened inv w :
  opens inv w →
  run inv w =
    process_document inv w (document inv w) (fileName_of inv)
      (ownerPW_of inv) (userPW_of inv) (opened_state inv).
Proof.
  intros (Hpast & Hargc & Hok). rewrite run_to_open by done. by rewrite Hok.
Qed.

Lemma run_sign_field inv w :
  opens inv w → addNewSignature (config inv) = false →
  0 < signatureNumber (config inv) →
  run inv w =
    match sign_field inv w (fileName_of inv) (sigCount_of (document inv w))
            (fields_state inv w) with
    | (Val _, s) =>
        dump_or_report inv w (fileName_of inv) (sigCount_of (document inv w)) s
    | (Exit n, s) => (Exit n, s)
    | (OutOfRange, s) => (OutOfRange, s)
    end.
Proof.
  intros Hopen Ha Hs. rewrite run_opened by done.
  assert (H1 : (0 <? signatureNumber (config inv)) = true) by lia.
  unfold process_document. rewrite Ha, H1. reflexivity.
Qed.

Lemma run_dump_or_report inv w :
  opens inv w → addNewSignature (config inv) = false →
  signatureNumber (config inv) ≤ 0 →
  run inv w =
    dump_or_report inv w (fileName_of inv) (sigCount_of (document inv w))
      (fields_state inv w).
Proof.
  intros Hopen Ha Hs. rewrite run_opened by done.
  assert (H1 : (0 <? signatureNumber (config inv)) = false) by lia.
  unfold process_document. rewrite Ha, H1. reflexivity.
Qed.

Lemma run_add_signature inv w :
  opens inv w → addNewSignature (config inv) = true →
  signatureNumber (config inv) ≤ 0 →
  run inv w =
    match add_signature inv w (document inv w) (ownerPW_of inv) (userPW_of inv)
            (opened_state inv) with
    | (Val _, s) =>
        (set_fields (getSignatureFields (document inv w));;
         dump_or_report inv w (fileName_of inv) (sigCount_of (document inv w))) s
    | (Exit n, s) => (Exit n, s)
    | (OutOfRange, s) => (OutOfRange, s)
    end.
Proof.
  intros Hopen Ha Hs. rewrite run_opened by done.
  assert (H1 : (0 <? signatureNumber (config inv)) = false) by lia.
  unfold process_document. rewrite Ha, H1. cbn.
  unfold_monad. cbn. destruct (add_signature _ _ _ _ _ _) as [[]]; reflexivity.
Qed.

(** ** The certificate store *)

Lemma getCerts_opens cfg w s :
  firstTime s = true → store_opens cfg w = true →
  ∃ s', getAvailableSigningCertificates cfg w s
        = (Val (false, nss_certificates (nss w)), s')
        ∧ adds [NSSGetCertificates] s s'.
Proof.
  intros Hft Hopen. unfold store_opens in Hopen.
  unfold getAvailableSigningCertificates,
    SignatureHandler_getAvailableSigningCertificates, passwordCallback.
  unfold_monad.
  destruct (nss_locked (nss w)), (String.length (nssPassword cfg)) eqn:Hlen;
    cbn in *; try discriminate; rewrite ?Hft; cbn; rewrite ?Hopen; cbn;
    (eexists; split; [reflexivity|]; by repeat split).
Qed.

Lemma getCerts_fails cfg w s :
  firstTime s = true → store_opens cfg w = false →
  ∃ s' m1 m2, getAvailableSigningCertificates cfg w s = (Val (true, []), s')
        ∧ adds [NSSGetCertificates; Stdout m1; Stdout m2] s s'
        ∧ (m1 = PasswordNeeded ∨ m1 = PasswordNotAccepted).
Proof.
  intros Hft Hopen. unfold store_opens in Hopen.
  unfold getAvailableSigningCertificates,
    SignatureHandler_getAvailableSigningCertificates, passwordCallback.
  unfold_monad.
  destruct (nss_locked (nss w)), (String.length (nssPassword cfg)) eqn:Hlen;
    cbn in *; try discriminate; rewrite ?Hft; cbn; rewrite ?Hopen; cbn;
    (do 3 eexists; split; [reflexivity|]; split; [|by (left + right)];
     repeat split; cbn; by rewrite <- !app_assoc).
Qed.

(** ** Signing a field *)

Lemma sign_field_to_store inv w file sigCount s :
  sign_request inv sigCount →
  sign_field inv w file sigCount s =
    (('(getCertsError, _) ← getAvailableSigningCertificates (config inv) w;
      when getCertsError (exit_with 2));;
     sign_target inv) s.
Proof.
  intros (Hargc & [Hpos Hle] & Hnick).
  assert (H1 : (argc inv =? 2) = false) by lia.
  assert (H2 : (to_int sigCount <? signatureNumber (config inv)) = false) by lia.
  unfold sign_field. rewrite H1, H2, (length_eqb_0 _ Hnick).
  unfold_monad. cbn.
  destruct (getAvailableSigningCertificates _ _ _) as [[[[] ?]| |] ?]; reflexivity.
Qed.

Lemma sign_field_store_fails inv w file sigCount s :
  sign_request inv sigCount → firstTime s = true →
  store_opens (config inv) w = false →
  ∃ s' m1 m2, sign_field inv w file sigCount s = (Exit 2, s')
    ∧ adds [NSSGetCertificates; Stdout m1; Stdout m2] s s'
    ∧ (m1 = PasswordNeeded ∨ m1 = PasswordNotAccepted).
Proof.
  intros Hreq Hft Hstore. rewrite sign_field_to_store by done.
  destruct (getCerts_fails _ _ _ Hft Hstore) as (s' & m1 & m2 & Heq & Hadds & Hm).
  exists s', m1, m2. split; [|done].
  unfold_monad. by rewrite Heq.
Qed.

Lemma sign_field_already_signed inv w file sigCount s f :
  sign_request inv sigCount → firstTime s = true →
  store_opens (config inv) w = true →
  fields s !! Z.to_nat (signatureNumber (config inv) - 1) = Some f →
  is_Some (fst (getCheckedSignature f)) →
  ∃ s', sign_field inv w file sigCount s = (Exit 2, s')
    ∧ adds [NSSGetCertificates;
            CallGetCheckedSignature (Z.to_nat (signatureNumber (config inv) - 1));
            Stdout (AlreadySigned (signatureNumber (config inv)))] s s'.
Proof.
  intros Hreq Hft Hstore Hf Hsigned. rewrite sign_field_to_store by done.
  destruct Hreq as (_ & [Hpos _] & _).
  destruct (getCerts_opens _ _ _ Hft Hstore) as (s' & Heq & Htr & Hfs & Hn & Hd).
  unfold sign_target. unfold_monad. rewrite Heq. cbn.
  rewrite at_lookup with (f := f) by (lia || by rewrite Hfs).
  rewrite bool_decide_eq_true_2 by done. cbn.
  eexists. split; [reflexivity|]. repeat split; cbn; try done.
  by rewrite Htr, <- !app_assoc.
Qed.

Lemma sign_field_etsi_widgets inv w file sigCount s f :
  sign_request inv sigCount → firstTime s = true →
  store_opens (config inv) w = true →
  fields s !! Z.to_nat (signatureNumber (config inv) - 1) = Some f →
  fst (getCheckedSignature f) = None →
  etsiCAdESdetached (config inv) = true →
  getNumWidgets f ≠ 1 →
  ∃ s', sign_field inv w file sigCount s = (Exit 2, s')
    ∧ trace s' = trace s ++
        [NSSGetCertificates;
         CallGetCheckedSignature (Z.to_nat (signatureNumber (config inv) - 1));
         CallSetSignatureType (Z.to_nat (signatureNumber (config inv) - 1))
           ETSI_CAdES_detached;
         Stdout (UnexpectedWidgets (getNumWidgets f))]
    ∧ fields s' = <[Z.to_nat (signatureNumber (config inv) - 1)
                    := setSignatureType ETSI_CAdES_detached f]> (fields s).
Proof.
  intros Hreq Hft Hstore Hf Hunsigned Hetsi Hwidgets.
  rewrite sign_field_to_store by done.
  destruct Hreq as (_ & [Hpos _] & _).
  destruct (getCerts_opens _ _ _ Hft Hstore) as (s' & Heq & Htr & Hfs & Hn & Hd).
  unfold sign_target. unfold_monad. rewrite Heq. cbn.
  rewrite at_lookup with (f := f) by (lia || by rewrite Hfs).
  rewrite Hunsigned, Hetsi.
  rewrite bool_decide_eq_false_2 by (by intros [? ?]). cbn.
  unfold modify_field. unfold_monad. cbn. rewrite Hfs, Hf. cbn.
  rewrite at_lookup with (f := setSignatureType ETSI_CAdES_detached f).
  2: lia.
  2: { cbn. apply list_lookup_insert_eq. by eapply lookup_lt_Some. }
  cbn. assert (H : (getNumWidgets f =? 1) = false) by lia. rewrite H. cbn.
  eexists. split; [reflexivity|]. split; cbn; [|done].
  by rewrite Htr, <- !app_assoc.
Qed.

(** ** The loops *)

Lemma report_loop cfg w fs (body : Z → M unit) n : ∀ k s,
  (∀ i f s, 0 ≤ i → fields s !! Z.to_nat i = Some f →
     body i s = (Val tt, with_trace (trace s ++ report_signature cfg w i f) s)) →
  fields s = fs → (k + n ≤ length fs)%nat →
  for_each (seqZ (Z.of_nat k) (Z.of_nat n)) body s
  = (Val tt,
     with_trace (trace s ++ report_all cfg w (Z.of_nat k) (take n (drop k fs))) s).
Proof.
  induction n as [|n IH]; intros k s Hbody Hfs Hlen.
  - cbn. by rewrite app_nil_r, with_trace_same.
  - destruct (lookup_lt_is_Some_2 fs k) as [f Hf]; [lia|].
    rewrite seqZ_cons by lia. rewrite (drop_S _ _ _ Hf).
    cbn [take report_all for_each]. unfold_monad.
    rewrite Hbody with (f := f) by (lia || by rewrite Nat2Z.id, Hfs).
    replace (Z.succ (Z.of_nat k)) with (Z.of_nat (S k)) by lia.
    replace (Z.pred (Z.of_nat (S n))) with (Z.of_nat n) by lia.
    rewrite IH by (done || lia). cbn.
    replace (Z.of_nat k + 1) with (Z.of_nat (S k)) by lia.
    by rewrite <- app_assoc.
Qed.

Lemma report_loop_all cfg w (body : Z → M unit) n s :
  (∀ i f s, 0 ≤ i → fields s !! Z.to_nat i = Some f →
     body i s = (Val tt, with_trace (trace s ++ report_signature cfg w i f) s)) →
  0 ≤ n ≤ Z.of_nat (length (fields s)) →
  for_each (seqZ 0 n) body s
  = (Val tt,
     with_trace (trace s ++ report_all cfg w 0 (take (Z.to_nat n) (fields s))) s).
Proof.
  intros Hbody Hn.
  pose proof (report_loop cfg w (fields s) body (Z.to_nat n) 0 s Hbody) as H.
  rewrite Z2Nat.id in H by lia. apply H; [done | lia].
Qed.

Lemma dumpSignature_run file count i f s :
  0 ≤ count < 2 ^ 31 → 0 ≤ i < 2 ^ 31 →
  dumpSignature (to_int i) (to_int count) f file s
  = (Val (bool_decide (is_Some (getSignature f))),
     with_trace (trace s ++ dump_one file count i f) s).
Proof.
  intros Hc Hi. unfold dumpSignature, dump_one, dump_name, GooString_format_sig.
  rewrite !to_int_small, to_unsigned_small by lia.
  destruct (getSignature f); unfold_monad; cbn; [|done].
  by rewrite <- app_assoc.
Qed.

Lemma dump_loop file count fs (body : Z → M unit) n : ∀ k s,
  (∀ i f s, 0 ≤ i < Z.of_nat (length fs) → fields s !! Z.to_nat i = Some f →
     body i s
     = ((if bool_decide (is_Some (getSignature f)) then Val tt else Exit 3),
        with_trace (trace s ++ dump_one file count i f) s)) →
  fields s = fs → (k + n ≤ length fs)%nat →
  for_each (seqZ (Z.of_nat k) (Z.of_nat n)) body s
  = ((if all_signed (take n (drop k fs)) then Val tt else Exit 3),
     with_trace
       (trace s ++ dump_all file count (Z.of_nat k) (take n (drop k fs))) s).
Proof.
  induction n as [|n IH]; intros k s Hbody Hfs Hlen.
  - cbn. by rewrite app_nil_r, with_trace_same.
  - destruct (lookup_lt_is_Some_2 fs k) as [f Hf]; [lia|].
    rewrite seqZ_cons by lia. rewrite (drop_S _ _ _ Hf).
    cbn [take dump_all for_each all_signed forallb]. unfold_monad.
    rewrite Hbody with (f := f) by (lia || by rewrite Nat2Z.id, Hfs).
    destruct (bool_decide (is_Some (getSignature f))).
    + replace (Z.succ (Z.of_nat k)) with (Z.of_nat (S k)) by lia.
      replace (Z.pred (Z.of_nat (S n))) with (Z.of_nat n) by lia.
      rewrite IH by (done || lia). cbn.
      replace (Z.of_nat k + 1) with (Z.of_nat (S k)) by lia.
      by rewrite <- app_assoc.
    + cbn. by rewrite app_nil_r.
Qed.

Lemma dump_loop_all file count (body : Z → M unit) fs s :
  (∀ i f s', 0 ≤ i < Z.of_nat (length fs) →
     fields s' !! Z.to_nat i = Some f →
     body i s'
     = ((if bool_decide (is_Some (getSignature f)) then Val tt else Exit 3),
        with_trace (trace s' ++ dump_one file count i f) s')) →
  fields s = fs →
  for_each (seqZ 0 (Z.of_nat (length fs))) body s
  = ((if all_signed fs then Val tt else Exit 3),
     with_trace (trace s ++ dump_all file count 0 fs) s).
Proof.
  intros Hbody Hfs.
  pose proof (dump_loop file count fs body (length fs) 0 s Hbody Hfs) as H.
  rewrite drop_0, firstn_all in H. apply H. lia.
Qed.

(** ** The report *)

Lemma run_report_some inv w :
  report_mode inv w → 1 ≤ sigCount_of (document inv w) →
  run inv w =
    (Exit 0,
     with_trace
       (trace (opened_state inv)
        ++ [Stdout (DigitalSignatureInfoOf (fileName_of inv))]
        ++ report_all (config inv) w 0
             (take (Z.to_nat (sigCount_of (document inv w)))
                (getSignatureFields (document inv w))))
       (fields_state inv w)).
Proof.
  intros (Hopen & Hargc & Ha & Hs & Hd) H1. rewrite run_dump_or_report by done.
  pose proof (sigCount_le_length (document inv w)) as Hn.
  assert (H1' : (1 <=? sigCount_of (document inv w)) = true) by lia.
  unfold dump_or_report. rewrite Hargc, Hd, H1'.
  unfold_monad. cbn.
  rewrite (report_loop_all (config inv) w).
  - cbn. done.
  - intros i f s Hi Hf. rewrite at_lookup with (f := f) by done.
    apply emit_all_trace.
  - done.
Qed.

Lemma run_report inv w :
  report_mode inv w →
  let n := sigCount_of (document inv w) in
  status (run inv w) = Exit (if 1 <=? n then 0 else 2)
  ∧ trace (final (run inv w))
    = trace (opened_state inv)
      ++ [Stdout (if 1 <=? n then DigitalSignatureInfoOf (fileName_of inv)
                  else NoSignatures (fileName_of inv))]
      ++ report_all (config inv) w 0
           (take (Z.to_nat n) (getSignatureFields (document inv w))).
Proof.
  intros Hmode n. destruct (1 <=? n) eqn:H1.
  - rewrite run_report_some by (done || lia). done.
  - destruct Hmode as (Hopen & Hargc & Ha & Hs & Hd).
    rewrite run_dump_or_report by done.
    pose proof (sigCount_le_length (document inv w)) as Hn. fold n in Hn.
    unfold dump_or_report. fold n. rewrite Hargc, Hd, H1.
    assert (n = 0) as -> by lia. done.
Qed.

Lemma report_all_lookup cfg w fs : ∀ k i f,
  fs !! i = Some f →
  ∃ before after,
    report_all cfg w k fs
    = before ++ report_signature cfg w (k + Z.of_nat i) f ++ after.
Proof.
  induction fs as [|f0 fs IH]; intros k i f Hf; [done|].
  destruct i as [|i]; cbn in Hf.
  - injection Hf as ->. exists [], (report_all cfg w (k + 1) fs).
    cbn [report_all]. by rewrite Z.add_0_r.
  - destruct (IH (k + 1) i f Hf) as (before & after & Heq).
    exists (report_signature cfg w k f0 ++ before), after.
    cbn [report_all]. rewrite Heq, <- app_assoc.
    by replace (k + 1 + Z.of_nat i) with (k + Z.of_nat (S i)) by lia.
Qed.

(** In report mode the turn of the loop for every field within the
    count is part of the trace. *)
Lemma report_contains inv w i f :
  report_mode inv w →
  getSignatureFields (document inv w) !! i = Some f →
  Z.of_nat i < sigCount_of (document inv w) →
  ∃ before after,
    trace (final (run inv w))
    = before ++ report_signature (config inv) w (Z.of_nat i) f ++ after.
Proof.
  intros Hmode Hf Hi. destruct (run_report inv w Hmode) as [_ ->].
  destruct (report_all_lookup (config inv) w
              (take (Z.to_nat (sigCount_of (document inv w)))
                 (getSignatureFields (document inv w))) 0 i f)
    as (before & after & ->).
  { rewrite lookup_take_lt by lia. done. }
  exists (trace (opened_state inv)
          ++ [Stdout (if 1 <=? sigCount_of (document inv w)
                      then DigitalSignatureInfoOf (fileName_of inv)
                      else NoSignatures (fileName_of inv))] ++ before), after.
  by rewrite <- !app_assoc.
Qed.

Lemma report_ranges_events i f e :
  e ∈ report_ranges i f →
  (∃ r0 r1 r2 r3, e = Stdout (SignedRanges r0 r1 r2 r3))
  ∨ e = CallGetCheckedSignature (Z.to_nat i)
  ∨ e = Stdout TotalDocumentSigned ∨ e = Stdout NotTotalDocumentSigned.
Proof.
  unfold report_ranges.
  destruct (getSignedRangeBounds f) as [|r0 [|r1 [|r2 [|r3 [|]]]]];
    try (by intros ?%elem_of_nil).
  destruct (getCheckedSignature f) as [signature size].
  rewrite !elem_of_cons, elem_of_nil.
  intros [->|[->|[->|[]]]]; [left; eauto|right; by left|].
  right. right. destruct (_ && _); [by left|by right].
Qed.

(** The two lines about the total document occur in a turn of the
    report loop only in its part about the signed ranges. *)
Lemma range_line_in_turn cfg w i f m :
  m = TotalDocumentSigned ∨ m = NotTotalDocumentSigned →
  Stdout m ∈ report_signature cfg w i f ↔ Stdout m ∈ report_ranges i f.
Proof.
  intros Hm. unfold report_signature.
  rewrite !elem_of_app, !elem_of_cons, elem_of_nil. split.
  - intros [H|[H|[H|H]]]; [exfalso|done|exfalso|exfalso].
    + destruct Hm as [-> | ->];
        repeat (destruct H as [H|H]; [discriminate|]); done.
    + destruct Hm as [-> | ->]; destruct H as [H|[]]; discriminate.
    + destruct (_ || _); [by apply elem_of_nil in H|].
      apply list_elem_of_singleton in H. destruct Hm as [-> | ->]; discriminate.
  - intros H. right. by left.
Qed.

(** ** The dump *)

Lemma run_dump inv w :
  dump_mode inv w →
  let fs := getSignatureFields (document inv w) in
  let count := Z.of_nat (length fs) in
  1 ≤ count < 2 ^ 31 →
  run inv w =
    (Exit (if all_signed fs then 0 else 3),
     with_trace
       (trace (opened_state inv) ++ [Stdout (DumpingSignatures count)]
        ++ dump_all (fileName_of inv) count 0 fs)
       (fields_state inv w)).
Proof.
  intros (Hopen & Hargc & Ha & Hs & Hd) fs count Hcount.
  rewrite run_dump_or_report by done.
  assert (Hn : sigCount_of (document inv w) = count)
    by (apply to_unsigned_small; lia).
  assert (H1 : (1 <=? count) = true) by lia.
  unfold dump_or_report. rewrite Hn, Hargc, Hd, H1.
  unfold_monad. cbn.
  rewrite (dump_loop_all (fileName_of inv) count _ fs).
  - cbn. by destruct (all_signed fs).
  - intros i f s Hi Hf. rewrite at_lookup with (f := f) by (lia || done).
    rewrite dumpSignature_run by (fold count in Hi; lia).
    by destruct (bool_decide _).
  - done.
Qed.

Lemma file_writes_app t1 t2 :
  file_writes (t1 ++ t2) = file_writes t1 ++ file_writes t2.
Proof. apply omap_app. Qed.

Lemma file_writes_dump_all file count fs : ∀ k,
  file_writes (dump_all file count k fs)
  = imap (λ i signature, (dump_name file count (k + Z.of_nat i), signature))
      (signed_prefix fs).
Proof.
  induction fs as [|f fs IH]; intros k; [done|].
  cbn [dump_all signed_prefix]. unfold dump_one.
  destruct (getSignature f) as [signature|]; [|done].
  rewrite bool_decide_eq_true_2 by done.
  rewrite file_writes_app, IH. cbn. rewrite Z.add_0_r. f_equal.
  apply imap_ext. intros i x _. cbn. do 2 f_equal. lia.
Qed.

Lemma dump_all_lookup file count fs : ∀ k i f,
  fs !! i = Some f → (i ≤ length (signed_prefix fs))%nat →
  ∃ before after,
    dump_all file count k fs
    = before ++ dump_one file count (k + Z.of_nat i) f ++ after.
Proof.
  induction fs as [|f0 fs IH]; intros k i f Hf Hi; [done|].
  destruct i as [|i]; cbn in Hf.
  - injection Hf as ->. exists []. eexists. cbn [dump_all].
    by rewrite Z.add_0_r.
  - cbn [signed_prefix] in Hi. cbn [dump_all].
    destruct (getSignature f0) as [signature|] eqn:Hsig; cbn in Hi; [|lia].
    rewrite bool_decide_eq_true_2 by done.
    destruct (IH (k + 1) i f Hf) as (before & after & ->); [lia|].
    exists (dump_one file count k f0 ++ before), after.
    rewrite <- app_assoc.
    by replace (k + 1 + Z.of_nat i) with (k + Z.of_nat (S i)) by lia.
Qed.

(** ** Adding a signature *)

Lemma append_random_name_run w n : ∀ s,
  append_random_name w n s
  = (Val tt,
     {| trace := trace s; fields := fields s; firstTime := firstTime s;
        fieldName := fieldName s +:+ random_name w (drawn s) n;
        drawn := (drawn s + n)%nat |}).
Proof.
  induction n as [|n IH]; intros s; cbn.
  - rewrite append_empty_r, Nat.add_0_r. by destruct s.
  - unfold uniform_int_distribution. unfold_monad. cbn. rewrite IH. cbn.
    rewrite append_snoc. do 3 f_equal. lia.
Qed.

Lemma random_name_length w n : ∀ k, String.length (random_name w k n) = n.
Proof.
  induction n as [|n IH]; intros k; cbn; [done | by rewrite IH].
Qed.

Lemma hex_char_range v :
  1 ≤ v ≤ 15 → hex_char v ∈ list_ascii_of_string "123456789ABCDEF".
Proof.
  intros Hv.
  assert (H : v = 1 ∨ v = 2 ∨ v = 3 ∨ v = 4 ∨ v = 5 ∨ v = 6 ∨ v = 7 ∨ v = 8
              ∨ v = 9 ∨ v = 10 ∨ v = 11 ∨ v = 12 ∨ v = 13 ∨ v = 14 ∨ v = 15)
    by lia.
  cbn. rewrite !elem_of_cons.
  repeat (destruct H as [->|H]; [vm_compute; tauto|]). subst. vm_compute. tauto.
Qed.

Lemma random_name_chars w n : ∀ k c,
  c ∈ list_ascii_of_string (random_name w k n) →
  c ∈ list_ascii_of_string "123456789ABCDEF".
Proof.
  induction n as [|n IH]; intros k c; cbn [random_name list_ascii_of_string].
  - by intros ?%elem_of_nil.
  - intros [->|Hc]%elem_of_cons; [|by eapply IH].
    apply hex_char_range.
    pose proof (Z.mod_pos_bound (mt19937 w k) 15). lia.
Qed.

#[local] Arguments append_random_name : simpl never.
#[local] Arguments random_name : simpl never.

Lemma run_add_request inv w :
  add_request inv w →
  let name :=
    if (String.length (newSignatureFieldName (config inv)) =? 0)%nat
    then random_name w 0 32 else newSignatureFieldName (config inv) in
  status (run inv w)
  = Exit (if sign (document inv w) (sign_args inv name) then 0 else 3)
  ∧ trace (final (run inv w))
    = trace (opened_state inv)
      ++ [GetPage1; NSSGetCertificates; DocSign (sign_args inv name)].
Proof.
  intros (Hopen & Ha & Hs & Hargc & Hnick & Hetsi & Hdigest & Hpage & Hstore) name.
  rewrite run_add_signature by done.
  assert (H1 : (argc inv =? 2) = false) by lia.
  unfold add_signature.
  rewrite H1, (length_eqb_0 _ Hnick), Hetsi, Hdigest, Hpage.
  unfold_monad. cbn.
  edestruct (getCerts_opens (config inv) w) as (s' & -> & Htr & Hfs & Hname & Hd);
    [|done|]; [done|].
  cbn. rewrite Hname. cbn. subst name.
  destruct (String.length (newSignatureFieldName (config inv)) =? 0)%nat eqn:Hlen.
  - rewrite append_random_name_run. cbn. rewrite Hname, Hd. cbn.
    assert (Hempty : newSignatureFieldName (config inv) = "")
      by (destruct (newSignatureFieldName (config inv)); done).
    rewrite Hempty. cbn. rewrite Htr. cbn.
    split; [done|]. by rewrite <- ?app_assoc.
  - cbn. rewrite Hname, Htr. cbn.
    split; [done|]. by rewrite <- ?app_assoc.
Qed.

(** * The claims *)

(** A hypothesis about a sample run holds by computation. *)
Ltac sample :=
  repeat split; try reflexivity; try (by vm_compute); try (by eexists).

(** C1 (as amended).  When both [-add-signature] and [-sign <N>] with
    [N > 0] are given, the flags parse, none of [-v], [-h], [-list-nicks]
    is given and an input file is named, the input document is opened
    first.  If it opens, the run then prints the usage text and exits
    with status 99, having made no other call; if it does not open, the
    run exits with status 1. *)
Theorem add_and_sign_rejected_after_open inv w :
  past_listing inv → 2 ≤ argc inv →
  addNewSignature (config inv) = true → 0 < signatureNumber (config inv) →
  status (run inv w) = Exit (if isOk (document inv w) then 99 else 1)
  ∧ trace (final (run inv w))
    = [SetNSSDir (nssDir (config inv));
       OpenDocument (fileName_of inv) (ownerPW_of inv) (userPW_of inv)]
      ++ (if isOk (document inv w) then [VersionBanner; UsageText] else []).
Proof.
  intros Hpast Hargc Ha Hs. rewrite run_to_open by done.
  destruct (isOk (document inv w)); [|done].
  assert (H1 : (0 <? signatureNumber (config inv)) = true) by lia.
  unfold process_document. rewrite Ha, H1. done.
Qed.

Lemma add_and_sign_rejected_after_open_witness :
  status (run Sample.inv_add_and_sign (Sample.world true false [])) = Exit 99.
Proof.
  apply (add_and_sign_rejected_after_open Sample.inv_add_and_sign
           (Sample.world true false [])); sample.
Defined.

(** C1, the counterexample: with both flags and an input file that does
    not open, the document is opened and the status is 1, not 99. *)
Lemma add_and_sign_unopened_exits_1 :
  addNewSignature (config Sample.inv_add_and_sign) = true
  ∧ 0 < signatureNumber (config Sample.inv_add_and_sign)
  ∧ status (run Sample.inv_add_and_sign (Sample.world false false [])) = Exit 1
  ∧ trace (final (run Sample.inv_add_and_sign (Sample.world false false [])))
    = [SetNSSDir ""; OpenDocument "in.pdf" None None].
Proof. sample. Qed.

(** C2 (what the code does).  When [-add-signature] gets to the signing
    call and no field name was given, the name passed to the engine has
    32 characters, every one of them among [1-9A-F]: the character [0]
    never occurs in it, whatever the generator gives. *)
Theorem generated_field_name_has_no_zero inv w :
  add_request inv w → newSignatureFieldName (config inv) = "" →
  ∃ name,
    DocSign (sign_args inv name) ∈ trace (final (run inv w))
    ∧ String.length name = 32%nat
    ∧ (∀ c, c ∈ list_ascii_of_string name →
            c ∈ list_ascii_of_string "123456789ABCDEF")
    ∧ "0"%char ∉ list_ascii_of_string name.
Proof.
  intros Hreq Hempty. exists (random_name w 0 32).
  destruct (run_add_request inv w Hreq) as [_ ->]. rewrite Hempty. cbn.
  split; [|split; [|split]].
  - do 4 apply list_elem_of_further. apply list_elem_of_here.
  - apply random_name_length.
  - apply random_name_chars.
  - intros Hin%random_name_chars. revert Hin. cbn.
    rewrite !elem_of_cons, elem_of_nil. intros H.
    repeat (destruct H as [H|H]; [discriminate|]). done.
Qed.

Lemma generated_field_name_has_no_zero_witness :
  ∃ name,
    DocSign (sign_args Sample.inv_add name)
      ∈ trace (final (run Sample.inv_add (Sample.world true false [])))
    ∧ String.length name = 32%nat
    ∧ (∀ c, c ∈ list_ascii_of_string name →
            c ∈ list_ascii_of_string "123456789ABCDEF")
    ∧ "0"%char ∉ list_ascii_of_string name.
Proof.
  apply (generated_field_name_has_no_zero Sample.inv_add
           (Sample.world true false [])); sample.
Defined.

(** C3 (as amended).  When the document opens and has no signature
    field, neither signing mode is chosen and one file name is given, the
    run prints that the file does not contain any signatures and exits
    with status 2, with [-dump] as without it. *)
Theorem no_signatures_exit_2 inv w :
  opens inv w → argc inv = 2 →
  addNewSignature (config inv) = false → signatureNumber (config inv) ≤ 0 →
  getSignatureFields (document inv w) = [] →
  status (run inv w) = Exit 2
  ∧ trace (final (run inv w))
    = trace (opened_state inv) ++ [Stdout (NoSignatures (fileName_of inv))]
  ∧ render (NoSignatures (fileName_of inv))
    = "File '" +:+ fileName_of inv +:+ "' does not contain any signatures" +:+ nl.
Proof.
  intros Hopen Hargc Ha Hs Hnone. rewrite run_dump_or_report by done.
  unfold dump_or_report, sigCount_of. rewrite Hargc, Hnone.
  by destruct (dumpSignatures (config inv)).
Qed.

Lemma no_signatures_exit_2_witness :
  status (run Sample.inv_report (Sample.world true false [])) = Exit 2.
Proof.
  apply (no_signatures_exit_2 Sample.inv_report (Sample.world true false []));
    sample.
Defined.

(** C3, the counterexample: under [-dump] a document without signature
    fields still gives the message and status 2. *)
Lemma dump_of_no_signatures_exits_2 :
  dumpSignatures (config Sample.inv_dump) = true
  ∧ status (run Sample.inv_dump (Sample.world true false [])) = Exit 2
  ∧ trace (final (run Sample.inv_dump (Sample.world true false [])))
    = [SetNSSDir ""; OpenDocument "dir/in.pdf" None None;
       Stdout (NoSignatures "dir/in.pdf")].
Proof. sample. Qed.

(** C4 (as amended).  With the flags parsed and none of [-v], [-h],
    [-list-nicks]: a run without an input file prints the usage text and
    exits with status 99 before anything is opened; a run with an input
    file that opens, exactly one of the two signing modes and no output
    file prints on the error stream that an output file name must be
    given, and exits with status 2. *)
Theorem missing_positional_argument inv w :
  past_listing inv →
  (argc inv < 2 →
   status (run inv w) = Exit 99
   ∧ trace (final (run inv w))
     = [SetNSSDir (nssDir (config inv)); VersionBanner; UsageText])
  ∧ (argc inv = 2 → isOk (document inv w) = true →
     xorb (addNewSignature (config inv)) (0 <? signatureNumber (config inv)) = true →
     status (run inv w) = Exit 2
     ∧ trace (final (run inv w))
       = trace (opened_state inv) ++ [Stderr OutputFilenameNeeded]).
Proof.
  intros Hpast. split.
  - intros Hargc. destruct Hpast as (Hp & Hv & Hh & Hl).
    assert (H1 : (argc inv <? 2) = true) by lia.
    unfold run, main. rewrite Hp, Hv, Hh, Hl, H1. done.
  - intros Hargc Hok Hmode.
    assert (Hopen : opens inv w) by (repeat split; [apply Hpast.. | lia | done]).
    destruct (addNewSignature (config inv)) eqn:Ha;
      destruct (0 <? signatureNumber (config inv)) eqn:Hs; try discriminate.
    + rewrite run_add_signature by (done || lia).
      unfold add_signature. rewrite Hargc. done.
    + rewrite run_sign_field by (done || lia).
      unfold sign_field. rewrite Hargc. done.
Qed.

Lemma missing_positional_argument_witness :
  status (run Sample.inv_no_file (Sample.world true false [])) = Exit 99.
Proof.
  apply (missing_positional_argument Sample.inv_no_file
           (Sample.world true false [])); sample.
Defined.

(** C4, the counterexample: [-add-signature] without an output file
    exits with status 2, not 99. *)
Lemma missing_output_exits_2 :
  addNewSignature (config Sample.inv_add_no_output) = true
  ∧ argc Sample.inv_add_no_output = 2
  ∧ status (run Sample.inv_add_no_output (Sample.world true false [])) = Exit 2
  ∧ trace (final (run Sample.inv_add_no_output (Sample.world true false [])))
    = [SetNSSDir ""; OpenDocument "in.pdf" None None;
       Stderr OutputFilenameNeeded].
Proof. sample. Qed.

(** C5.  In dump mode, on a document with fewer than 2^31 signature
    fields, the files written are, in the order of the fields and up to
    the first field that has no signature, those named by the base name
    of the input, [.sig], and the index of the field from 0, with zeros
    in front up to the number of digits of the count of fields; each
    holds the signature of its field. *)
Theorem dump_file_names inv w :
  dump_mode inv w →
  let fs := getSignatureFields (document inv w) in
  let count := Z.of_nat (length fs) in
  count < 2 ^ 31 →
  file_writes (trace (final (run inv w)))
  = imap (λ i signature,
            (gbasename (fileName_of inv) +:+ ".sig"
             +:+ zero_pad (numberOfCharacters count) (Z.of_nat i),
             signature))
      (signed_prefix fs).
Proof.
  intros Hmode fs count Hcount.
  destruct (decide (count = 0)) as [H0|H0].
  - assert (Hfs : fs = []) by (apply length_zero_iff_nil; lia).
    destruct Hmode as (Hopen & Hargc & Ha & Hs & Hd).
    rewrite run_dump_or_report by done.
    unfold dump_or_report, sigCount_of. fold fs. rewrite Hfs, Hargc. done.
  - rewrite run_dump by (done || fold fs count; lia).
    cbn. fold fs count.
    change (file_writes (Stdout (DumpingSignatures count)
                         :: dump_all (fileName_of inv) count 0 fs)
            = imap (λ i signature,
                      (dump_name (fileName_of inv) count (0 + Z.of_nat i),
                       signature)) (signed_prefix fs)).
    by rewrite <- file_writes_dump_all.
Qed.

Lemma dump_file_names_witness :
  file_writes
    (trace (final (run Sample.inv_dump
                     (Sample.world true false (replicate 11 Sample.signed_field)))))
  !! 3%nat = Some ("in.pdf.sig03", "abc").
Proof.
  rewrite (dump_file_names Sample.inv_dump
             (Sample.world true false (replicate 11 Sample.signed_field)));
    sample.
Defined.

(** C6.  In report mode, the turn of the report loop for a field is
    part of the run, and it prints a certificate validation line exactly
    when the signature validation status of that field is valid and
    [-nocert] was not given; the line then shows the certificate
    validation status of the field. *)
Theorem certificate_line_iff_valid_and_checked inv w i f :
  report_mode inv w →
  getSignatureFields (document inv w) !! i = Some f →
  Z.of_nat i < sigCount_of (document inv w) →
  let cfg := config inv in
  let sig_info :=
    validateSignature f (negb (dontVerifyCert cfg)) false (-1)
      (negb (noOCSPRevocationCheck cfg)) (useAIACertFetch cfg) in
  let turn := report_signature cfg w (Z.of_nat i) f in
  (∃ before after, trace (final (run inv w)) = before ++ turn ++ after)
  ∧ ∀ c, Stdout (CertificateValidation c) ∈ turn
         ↔ getSignatureValStatus sig_info = SIGNATURE_VALID
           ∧ dontVerifyCert cfg = false
           ∧ c = getCertificateValStatus sig_info.
Proof.
  intros Hmode Hf Hi cfg sig_info turn. split; [by apply report_contains|].
  intros c. subst turn. unfold report_signature. fold sig_info.
  rewrite !elem_of_app, !elem_of_cons, elem_of_nil.
  split.
  - intros [H|[H|[H|H]]].
    + repeat (destruct H as [H|H]; [discriminate|]). done.
    + apply report_ranges_events in H
        as [(? & ? & ? & ? & ?)|[?|[?|?]]]; discriminate.
    + destruct H as [H|[]]. discriminate.
    + destruct (decide (getSignatureValStatus sig_info = SIGNATURE_VALID))
        as [Hst|Hst].
      * rewrite bool_decide_eq_false_2 in H by (by intros []).
        destruct (dontVerifyCert cfg); cbn in H.
        -- by apply elem_of_nil in H.
        -- apply list_elem_of_singleton in H. by injection H as ->.
      * rewrite bool_decide_eq_true_2 in H by done. by apply elem_of_nil in H.
  - intros (Hst & Hcert & ->). right. right. right.
    rewrite bool_decide_eq_false_2 by (by intros []).
    rewrite Hcert. cbn. by apply list_elem_of_singleton.
Qed.

Lemma certificate_line_iff_valid_and_checked_witness :
  Stdout (CertificateValidation CERTIFICATE_TRUSTED)
  ∈ report_signature (config Sample.inv_report)
      (Sample.world true false [Sample.signed_field]) 0 Sample.signed_field.
Proof.
  apply (certificate_line_iff_valid_and_checked Sample.inv_report
           (Sample.world true false [Sample.signed_field]) 0
           Sample.signed_field); sample.
Defined.

(** C7.  In report mode, for a field whose signed range bounds are the
    four numbers [s0 s1 s2 s3], the turn of the report loop prints the
    line that the total document is signed exactly when the checked
    signature exists and the file size given with it equals [s3], and it
    prints the line that not the total document is signed exactly when
    this is not so. *)
Theorem total_document_signed_iff inv w i f s0 s1 s2 s3 :
  report_mode inv w →
  getSignatureFields (document inv w) !! i = Some f →
  Z.of_nat i < sigCount_of (document inv w) →
  getSignedRangeBounds f = [s0; s1; s2; s3] →
  let turn := report_signature (config inv) w (Z.of_nat i) f in
  let total :=
    is_Some (fst (getCheckedSignature f)) ∧ snd (getCheckedSignature f) = s3 in
  (∃ before after, trace (final (run inv w)) = before ++ turn ++ after)
  ∧ (Stdout TotalDocumentSigned ∈ turn ↔ total)
  ∧ (Stdout NotTotalDocumentSigned ∈ turn ↔ ¬ total).
Proof.
  intros Hmode Hf Hi Hranges turn total. split; [by apply report_contains|].
  subst turn total.
  rewrite !range_line_in_turn by auto.
  unfold report_ranges. rewrite Hranges.
  destruct (getCheckedSignature f) as [signature size]. cbn [fst snd].
  rewrite !elem_of_cons, !elem_of_nil.
  destruct (bool_decide_reflect (is_Some signature)) as [Hsig|Hsig];
    (destruct (Z.eqb_spec size s3) as [Hsize|Hsize]); cbn [andb];
    intuition congruence.
Qed.

Lemma total_document_signed_iff_witness :
  Stdout TotalDocumentSigned
  ∈ report_signature (config Sample.inv_report)
      (Sample.world true false [Sample.signed_field]) 0 Sample.signed_field.
Proof.
  apply (total_document_signed_iff Sample.inv_report
           (Sample.world true false [Sample.signed_field]) 0
           Sample.signed_field 0 10 20 100); sample.
Defined.

(** C8 (as amended).  When [-sign <N>] is given without
    [-add-signature], the document opens, an output file and a nickname
    are given, [N] is within the count and the field of number [N]
    already has a checked signature, the run exits with status 2 and
    never calls the signing operation; if moreover the certificate store
    gives its certificates, the last thing the run prints is that the
    signature of number [N] is already signed. *)
Theorem sign_already_signed_field inv w f :
  opens inv w → addNewSignature (config inv) = false →
  sign_request inv (sigCount_of (document inv w)) →
  getSignatureFields (document inv w)
    !! Z.to_nat (signatureNumber (config inv) - 1) = Some f →
  is_Some (fst (getCheckedSignature f)) →
  status (run inv w) = Exit 2
  ∧ forallb (λ e, negb (is_sign_call e)) (trace (final (run inv w))) = true
  ∧ (store_opens (config inv) w = true →
     trace (final (run inv w))
     = trace (opened_state inv) ++
       [NSSGetCertificates;
        CallGetCheckedSignature (Z.to_nat (signatureNumber (config inv) - 1));
        Stdout (AlreadySigned (signatureNumber (config inv)))]).
Proof.
  intros Hopen Ha Hreq Hf Hsigned.
  rewrite run_sign_field by (done || apply Hreq).
  destruct (store_opens (config inv) w) eqn:Hstore.
  - destruct (sign_field_already_signed inv w (fileName_of inv)
                (sigCount_of (document inv w)) (fields_state inv w) f)
      as (s' & -> & Htr & _); try done.
    cbn. rewrite Htr. by repeat split.
  - destruct (sign_field_store_fails inv w (fileName_of inv)
                (sigCount_of (document inv w)) (fields_state inv w))
      as (s' & m1 & m2 & -> & (Htr & _) & _); try done.
    cbn. rewrite Htr. by repeat split.
Qed.

Lemma sign_already_signed_field_witness :
  status (run Sample.inv_sign (Sample.world true false [Sample.signed_field]))
  = Exit 2.
Proof.
  apply (sign_already_signed_field Sample.inv_sign
           (Sample.world true false [Sample.signed_field])
           Sample.signed_field); sample.
Defined.

(** C8, the counterexample: the field is already signed, but the store
    is locked and no password is given; the run exits with status 2
    after the message about the password, and does not print that the
    field is already signed. *)
Lemma locked_store_hides_already_signed :
  is_Some (fst (getCheckedSignature Sample.signed_field))
  ∧ status (run Sample.inv_sign (Sample.world true true [Sample.signed_field]))
    = Exit 2
  ∧ trace (final (run Sample.inv_sign
                    (Sample.world true true [Sample.signed_field])))
    = [SetNSSDir ""; OpenDocument "in.pdf" None None; NSSGetCertificates;
       Stdout PasswordNeeded; Stdout ProvideOneWithNssPwd]
  ∧ Stdout (AlreadySigned 1)
    ∉ trace (final (run Sample.inv_sign
                      (Sample.world true true [Sample.signed_field]))).
Proof.
  assert (Htr : trace (final (run Sample.inv_sign
                                 (Sample.world true true [Sample.signed_field])))
                = [SetNSSDir ""; OpenDocument "in.pdf" None None;
                   NSSGetCertificates; Stdout PasswordNeeded;
                   Stdout ProvideOneWithNssPwd]) by done.
  split; [by eexists|]. split; [done|]. split; [done|].
  rewrite Htr, !elem_of_cons, elem_of_nil. intuition discriminate.
Qed.

(** C9 (as amended).  For the field of index [i] (from 0) of a document
    with fewer than 2^31 signature fields: in report mode the heading of
    its turn names it by [i + 1], and no message of the turn names any
    other number; in dump mode the message about it names it by [i], the
    number that is also in the name of its file; and the message of
    [-sign <N>] that a field is already signed names the field of index
    [N - 1] by [N]. *)
Theorem field_numbers_in_messages inv w i f :
  getSignatureFields (document inv w) !! i = Some f →
  Z.of_nat (length (getSignatureFields (document inv w))) < 2 ^ 31 →
  let cfg := config inv in
  let fs := getSignatureFields (document inv w) in
  (report_mode inv w →
   let turn := report_signature cfg w (Z.of_nat i) f in
   (∃ before after, trace (final (run inv w)) = before ++ turn ++ after)
   ∧ Stdout (SignatureHeader (Z.of_nat i + 1)) ∈ turn
   ∧ ∀ m n, Stdout m ∈ turn → ordinal_named m = Some n → n = Z.of_nat i + 1)
  ∧ (dump_mode inv w → (i ≤ length (signed_prefix fs))%nat →
     let m :=
       match getSignature f with
       | Some signature =>
           Dumped (Z.of_nat i) (Z.of_nat (String.length signature))
             (gbasename (fileName_of inv) +:+ ".sig"
              +:+ zero_pad (numberOfCharacters (Z.of_nat (length fs)))
                    (Z.of_nat i))
       | None => CannotDump (Z.of_nat i)
       end in
     Stdout m ∈ trace (final (run inv w))
     ∧ ordinal_named m = Some (Z.of_nat i))
  ∧ (opens inv w → addNewSignature cfg = false →
     sign_request inv (sigCount_of (document inv w)) →
     store_opens cfg w = true →
     signatureNumber cfg = Z.of_nat i + 1 →
     is_Some (fst (getCheckedSignature f)) →
     Stdout (AlreadySigned (Z.of_nat i + 1)) ∈ trace (final (run inv w))).
Proof.
  intros Hf Hlen cfg fs. subst cfg fs.
  pose proof (lookup_lt_Some _ _ _ Hf) as Hi.
  assert (Hn : sigCount_of (document inv w)
               = Z.of_nat (length (getSignatureFields (document inv w))))
    by (apply to_unsigned_small; lia).
  split; [|split].
  - intros Hmode turn. split; [apply report_contains; (done || lia)|].
    subst turn. unfold report_signature.
    rewrite to_unsigned_small by lia.
    split.
    + apply elem_of_app. left. rewrite !elem_of_cons. auto.
    + intros m n. rewrite !elem_of_app, !elem_of_cons, elem_of_nil.
      intros [Hin|[Hin|[Hin|Hin]]] Hord.
      * repeat (destruct Hin as [Hin|Hin]; [by simplify_eq/=|]). done.
      * apply report_ranges_events in Hin
          as [(? & ? & ? & ? & ?)|[?|[?|?]]]; by simplify_eq/=.
      * destruct Hin as [Hin|[]]. by simplify_eq/=.
      * destruct (_ || _); [by apply elem_of_nil in Hin|].
        apply list_elem_of_singleton in Hin. by simplify_eq/=.
  - intros Hmode Hprefix m.
    rewrite run_dump by (done || lia). cbn.
    destruct (dump_all_lookup (fileName_of inv)
                (Z.of_nat (length (getSignatureFields (document inv w))))
                (getSignatureFields (document inv w)) 0 i f)
      as (before & after & ->); [done..|].
    subst m. unfold dump_one, dump_name. cbn.
    split; [|by destruct (getSignature f)].
    do 3 apply list_elem_of_further.
    apply elem_of_app. right. apply elem_of_app. left.
    destruct (getSignature f); apply list_elem_of_here.
  - intros Hopen Ha Hreq Hstore Hnum Hsigned.
    rewrite run_sign_field by (done || apply Hreq).
    destruct (sign_field_already_signed inv w (fileName_of inv)
                (sigCount_of (document inv w)) (fields_state inv w) f)
      as (s' & -> & Htr & _); try done.
    + rewrite Hnum. cbn.
      by replace (Z.to_nat (Z.of_nat i + 1 - 1)) with i by lia.
    + cbn. rewrite Htr, Hnum.
      apply elem_of_app. right. rewrite !elem_of_cons. auto.
Qed.

Lemma field_numbers_in_messages_witness :
  Stdout (SignatureHeader 1)
  ∈ report_signature (config Sample.inv_report)
      (Sample.world true false [Sample.signed_field]) 0 Sample.signed_field.
Proof.
  apply (field_numbers_in_messages Sample.inv_report
           (Sample.world true false [Sample.signed_field]) 0
           Sample.signed_field); sample.
Defined.

(** C9, the counterexample: in dump mode the message about the first
    field of the document names it by 0. *)
Lemma dump_message_names_first_field_0 :
  Stdout (Dumped 0 3 "in.pdf.sig0")
  ∈ trace (final (run Sample.inv_dump
                    (Sample.world true false [Sample.signed_field])))
  ∧ render (Dumped 0 3 "in.pdf.sig0")
    = "Signature #0 (3 bytes) => in.pdf.sig0" +:+ nl
  ∧ ordinal_named (Dumped 0 3 "in.pdf.sig0") ≠ Some 1.
Proof.
  split; [|done].
  assert (Htr : trace (final (run Sample.inv_dump
                                 (Sample.world true false [Sample.signed_field])))
                = [SetNSSDir ""; OpenDocument "dir/in.pdf" None None;
                   Stdout (DumpingSignatures 1);
                   Stdout (Dumped 0 3 "in.pdf.sig0");
                   FileWrite "in.pdf.sig0" "abc"]) by done.
  rewrite Htr, !elem_of_cons. auto.
Qed.

(** C10.  On the path of [-sign <N>] with [-etsi], when the field is
    not yet signed and does not have exactly one widget, the run sets
    the signature type of the field before it looks at the widgets: it
    exits with status 2 after the message about the widgets, and the
    field is left with the type ETSI.CAdES.detached, so that the fields
    differ from those of the opened document if the field had another
    type. *)
Theorem etsi_type_set_before_widget_check inv w f :
  opens inv w → addNewSignature (config inv) = false →
  sign_request inv (sigCount_of (document inv w)) →
  store_opens (config inv) w = true →
  getSignatureFields (document inv w)
    !! Z.to_nat (signatureNumber (config inv) - 1) = Some f →
  fst (getCheckedSignature f) = None →
  etsiCAdESdetached (config inv) = true →
  getNumWidgets f ≠ 1 →
  let idx := Z.to_nat (signatureNumber (config inv) - 1) in
  status (run inv w) = Exit 2
  ∧ trace (final (run inv w))
    = trace (opened_state inv) ++
      [NSSGetCertificates; CallGetCheckedSignature idx;
       CallSetSignatureType idx ETSI_CAdES_detached;
       Stdout (UnexpectedWidgets (getNumWidgets f))]
  ∧ fields (final (run inv w))
    = <[idx := setSignatureType ETSI_CAdES_detached f]>
        (getSignatureFields (document inv w))
  ∧ getSignatureType <$> fields (final (run inv w)) !! idx
    = Some ETSI_CAdES_detached
  ∧ (getSignatureType f ≠ ETSI_CAdES_detached →
     fields (final (run inv w)) ≠ getSignatureFields (document inv w)).
Proof.
  intros Hopen Ha Hreq Hstore Hf Hunsigned Hetsi Hwidgets idx. subst idx.
  rewrite run_sign_field by (done || apply Hreq).
  destruct (sign_field_etsi_widgets inv w (fileName_of inv)
              (sigCount_of (document inv w)) (fields_state inv w) f)
    as (s' & -> & Htr & Hfs); try done.
  unfold status, final. cbn [fst snd]. rewrite Htr, Hfs.
  change (fields (fields_state inv w))
    with (getSignatureFields (document inv w)).
  pose proof (list_lookup_insert_eq (getSignatureFields (document inv w)) _
                (setSignatureType ETSI_CAdES_detached f)
                (lookup_lt_Some _ _ _ Hf)) as Hnew.
  split; [done|]. split; [done|]. split; [done|]. split.
  - by rewrite Hnew.
  - intros Htype Heq. rewrite Heq, Hf in Hnew. injection Hnew as Hnew.
    apply Htype. by rewrite Hnew.
Qed.

Lemma etsi_type_set_before_widget_check_witness :
  getSignatureType
    <$> fields (final (run Sample.inv_sign_etsi
                         (Sample.world true false [Sample.empty_field 2])))
        !! 0%nat
  = Some ETSI_CAdES_detached.
Proof.
  apply (etsi_type_set_before_widget_check Sample.inv_sign_etsi
           (Sample.world true false [Sample.empty_field 2])
           (Sample.empty_field 2)); sample.
Defined.

(** * Further properties of the program *)

(** ** The exit status *)

Ltac in_list :=
  solve [repeat first [apply list_elem_of_here | apply list_elem_of_further]].

Lemma exits_with_weaken {A} (codes codes' : list Z) (r : Res A * State) :
  codes ⊆ codes' → exits_with codes r → exits_with codes' r.
Proof. intros Hsub (n & Hn & Hin). exists n. split; [done|]. by apply Hsub. Qed.

Lemma exits_with_exit {A} (codes : list Z) n (s : State) :
  n ∈ codes → exits_with codes (@Exit A n, s).
Proof. intros Hn. by exists n. Qed.

(** [getAvailableSigningCertificates] always returns, and leaves the
    fields, the field name and the generator as they were. *)
Lemma getCerts_returns cfg w s :
  ∃ r s', getAvailableSigningCertificates cfg w s = (Val r, s')
          ∧ fields s' = fields s ∧ fieldName s' = fieldName s
          ∧ drawn s' = drawn s.
Proof.
  unfold getAvailableSigningCertificates,
    SignatureHandler_getAvailableSigningCertificates, passwordCallback.
  unfold_monad. cbn.
  destruct (nss_locked (nss w)); cbn; [|by do 2 eexists].
  destruct (firstTime s) eqn:Hft; cbn;
    destruct (String.length (nssPassword cfg)); cbn;
    try destruct (nss_accepts (nss w) (nssPassword cfg)); cbn;
    by do 2 eexists.
Qed.

Lemma append_random_name_returns w n s :
  ∃ s', append_random_name w n s = (Val tt, s') ∧ fields s' = fields s.
Proof. rewrite append_random_name_run. by eexists. Qed.

Lemma add_signature_exits inv w doc ownerPW userPW s :
  exits_with [0; 2; 3] (add_signature inv w doc ownerPW userPW s).
Proof.
  unfold add_signature. unfold_monad.
  destruct (argc inv =? 2); [apply exits_with_exit; in_list|].
  destruct (String.length (certNickname (config inv)) =? 0)%nat;
    [apply exits_with_exit; in_list|].
  destruct (etsiCAdESdetached (config inv));
    [apply exits_with_exit; in_list|].
  destruct (String.eqb (digestName (config inv)) "SHA256"); cbn;
    [|apply exits_with_exit; in_list].
  destruct (hasPage1 doc); cbn; [|apply exits_with_exit; in_list].
  destruct (getCerts_returns (config inv) w
              (with_trace (trace s ++ [GetPage1]) s))
    as ([err certs] & s' & -> & _).
  destruct err; cbn; [apply exits_with_exit; in_list|].
  destruct (String.length (fieldName s') =? 0)%nat.
  - destruct (append_random_name_returns w 32 s') as (s'' & -> & _). cbn.
    destruct (sign doc _); apply exits_with_exit; in_list.
  - cbn. destruct (sign doc _); apply exits_with_exit; in_list.
Qed.

Lemma to_int_to_unsigned_le z : 0 ≤ z → to_int (to_unsigned z) ≤ z.
Proof.
  intros Hz. unfold to_int, to_unsigned. rewrite Z.mod_mod by lia.
  pose proof (Z.mod_le z (2 ^ 32)). pose proof (Z.mod_pos_bound z (2 ^ 32)).
  destruct (z mod 2 ^ 32 <? 2 ^ 31); lia.
Qed.

Lemma sign_target_exits inv s :
  0 < signatureNumber (config inv) ≤ Z.of_nat (length (fields s)) →
  exits_with [0; 2; 3] (sign_target inv s).
Proof.
  intros Hn.
  destruct (lookup_lt_is_Some_2 (fields s)
              (Z.to_nat (signatureNumber (config inv) - 1))) as [f Hf]; [lia|].
  unfold sign_target. unfold_monad.
  rewrite at_lookup with (f := f) by (lia || done). cbn.
  destruct (bool_decide (is_Some (getCheckedSignature f).1)); cbn;
    [apply exits_with_exit; in_list|].
  destruct (etsiCAdESdetached (config inv)); cbn.
  - unfold modify_field. unfold_monad. cbn. rewrite Hf. cbn.
    rewrite at_lookup with (f := setSignatureType ETSI_CAdES_detached f).
    2: lia.
    2: { cbn. apply list_lookup_insert_eq. by eapply lookup_lt_Some. }
    cbn. destruct (getNumWidgets f =? 1); cbn;
      [|apply exits_with_exit; in_list].
    destruct (signDocument f _ _ _ _ _ _); apply exits_with_exit; in_list.
  - rewrite at_lookup with (f := f) by (lia || done). cbn.
    destruct (getNumWidgets f =? 1); cbn;
      [|apply exits_with_exit; in_list].
    destruct (signDocument f _ _ _ _ _ _); apply exits_with_exit; in_list.
Qed.

Lemma sign_field_exits inv w file s :
  0 < signatureNumber (config inv) →
  exits_with [0; 2; 3]
    (sign_field inv w file (to_unsigned (Z.of_nat (length (fields s)))) s).
Proof.
  intros Hpos. unfold sign_field. unfold_monad.
  destruct (argc inv =? 2); [apply exits_with_exit; in_list|].
  destruct (Z.ltb_spec (to_int (to_unsigned (Z.of_nat (length (fields s)))))
              (signatureNumber (config inv))) as [Hlt|Hle];
    [apply exits_with_exit; in_list|].
  destruct (String.length (certNickname (config inv)) =? 0)%nat;
    [apply exits_with_exit; in_list|].
  destruct (getCerts_returns (config inv) w s)
    as ([err certs] & s' & -> & Hfs & _).
  destruct err; cbn; [apply exits_with_exit; in_list|].
  apply sign_target_exits. rewrite Hfs.
  pose proof (to_int_to_unsigned_le (Z.of_nat (length (fields s)))). lia.
Qed.

(** A loop over indices below a bound: if every turn within the bound
    keeps [P] and goes on, or exits with one of [codes], so does the
    loop. *)
Lemma for_each_status (P : State → Prop) (codes : list Z) (body : Z → M unit)
    (bound : Z) n : ∀ k s,
  (∀ i s, 0 ≤ i < bound → P s →
     (∃ s', body i s = (Val tt, s') ∧ P s') ∨ exits_with codes (body i s)) →
  Z.of_nat (k + n) ≤ bound → P s →
  (∃ s', for_each (seqZ (Z.of_nat k) (Z.of_nat n)) body s = (Val tt, s') ∧ P s')
  ∨ exits_with codes (for_each (seqZ (Z.of_nat k) (Z.of_nat n)) body s).
Proof.
  induction n as [|n IH]; intros k s Hbody Hbound HP.
  - left. by exists s.
  - rewrite seqZ_cons by lia. cbn [for_each]. unfold_monad.
    destruct (Hbody (Z.of_nat k) s) as [(s' & -> & HP')|(c & Hc & Hin)];
      [lia|done| |].
    + replace (Z.succ (Z.of_nat k)) with (Z.of_nat (S k)) by lia.
      replace (Z.pred (Z.of_nat (S n))) with (Z.of_nat n) by lia.
      apply IH; [done|lia|done].
    + right. destruct (body (Z.of_nat k) s) as [r s']. cbn in Hc. subst r.
      by exists c.
Qed.

Lemma for_each_status_all (P : State → Prop) (codes : list Z)
    (body : Z → M unit) (bound n : Z) s :
  (∀ i s, 0 ≤ i < bound → P s →
     (∃ s', body i s = (Val tt, s') ∧ P s') ∨ exits_with codes (body i s)) →
  0 ≤ n ≤ bound → P s →
  (∃ s', for_each (seqZ 0 n) body s = (Val tt, s') ∧ P s')
  ∨ exits_with codes (for_each (seqZ 0 n) body s).
Proof.
  intros Hbody Hn HP.
  pose proof (for_each_status P codes body bound (Z.to_nat n) 0 s Hbody) as H.
  rewrite Z2Nat.id in H by lia. apply H; [lia|done].
Qed.

Lemma dumpSignature_returns sig_num sigCount f file s :
  ∃ b s', dumpSignature sig_num sigCount f file s = (Val b, s')
          ∧ fields s' = fields s.
Proof.
  unfold dumpSignature. destruct (getSignature f); unfold_monad; cbn;
    by do 2 eexists.
Qed.

Lemma dump_or_report_exits inv w file s :
  exits_with [0; 2; 3; 99]
    (dump_or_report inv w file (to_unsigned (Z.of_nat (length (fields s)))) s).
Proof.
  pose proof (Z.mod_pos_bound (Z.of_nat (length (fields s))) (2 ^ 32)) as Hb.
  pose proof (Z.mod_le (Z.of_nat (length (fields s))) (2 ^ 32)) as Hle.
  unfold to_unsigned. set (n := Z.of_nat (length (fields s)) mod 2 ^ 32) in *.
  unfold dump_or_report. unfold_monad.
  destruct (2 <? argc inv); [apply exits_with_exit; in_list|]. cbn.
  destruct (1 <=? n); cbn; [|apply exits_with_exit; in_list].
  destruct (dumpSignatures (config inv)); cbn.
  - match goal with
    | |- context [for_each (seqZ 0 n) ?b ?s0] =>
        destruct (for_each_status_all
                    (λ s', length (fields s') = length (fields s)) [3]
                    b (Z.of_nat (length (fields s))) n s0)
          as [(s' & -> & _)|(c & Hc & Hin)]
    end.
    + intros i s0 Hi Hlen.
      destruct (lookup_lt_is_Some_2 (fields s0) (Z.to_nat i)) as [f Hf]; [lia|].
      rewrite at_lookup with (f := f) by (lia || done).
      destruct (dumpSignature_returns (to_int i) (to_int n) f file s0)
        as (b & s1 & -> & Hfs).
      destruct b; cbn; [left|right].
      * exists s1. split; [done|]. by rewrite Hfs.
      * apply exits_with_exit. in_list.
    + lia.
    + done.
    + apply exits_with_exit. in_list.
    + destruct (for_each _ _ _) as [r s']. cbn in Hc. subst r.
      exists c. split; [done|]. apply list_elem_of_singleton in Hin as ->.
      in_list.
  - rewrite (report_loop_all (config inv) w).
    + apply exits_with_exit. in_list.
    + intros i f s0 Hi Hf. rewrite at_lookup with (f := f) by done.
      apply emit_all_trace.
    + cbn. lia.
Qed.

Lemma process_document_exits inv w doc file ownerPW userPW s :
  exits_with [0; 2; 3; 99] (process_document inv w doc file ownerPW userPW s).
Proof.
  unfold process_document. unfold_monad.
  destruct (addNewSignature (config inv)) eqn:Ha; cbn.
  - destruct (0 <? signatureNumber (config inv));
      [apply exits_with_exit; in_list|].
    destruct (add_signature_exits inv w doc ownerPW userPW s)
      as (n & Hn & Hin).
    destruct (add_signature _ _ _ _ _ _) as [r s']. cbn in Hn. subst r.
    exists n. split; [done|].
    revert Hin. rewrite !elem_of_cons. intuition.
  - destruct (Z.ltb_spec 0 (signatureNumber (config inv))) as [Hpos|Hneg].
    + pose proof (sign_field_exits inv w file
        {| trace := trace s; fields := getSignatureFields doc;
           firstTime := firstTime s; fieldName := fieldName s;
           drawn := drawn s |} Hpos) as (n & Hn & Hin).
      cbn [fields] in Hn.
      destruct (sign_field _ _ _ _ _) as [r s']. cbn in Hn. subst r.
      exists n. split; [done|].
      revert Hin. rewrite !elem_of_cons. intuition.
    + apply (dump_or_report_exits inv w file
        {| trace := trace s; fields := getSignatureFields doc;
           firstTime := firstTime s; fieldName := fieldName s;
           drawn := drawn s |}).
Qed.

(** X1.  Every run of [main] ends with one of the exit statuses 0, 1,
    2, 3 and 99; in particular no call of [vector::at] is ever out of
    range. *)
Theorem main_exit_status inv w :
  ∃ n, status (run inv w) = Exit n ∧ n ∈ [0; 1; 2; 3; 99].
Proof.
  unfold status, run, main. unfold_monad.
  destruct (parseOk inv); cbn; [|exists 99; split; [done|in_list]].
  destruct (printVersion (config inv)); cbn; [exists 0; split; [done|in_list]|].
  destruct (printHelp (config inv)); cbn; [exists 0; split; [done|in_list]|].
  destruct (listNicknames (config inv)); cbn.
  - destruct (getCerts_returns (config inv) w
                (with_trace (trace (initial inv)
                             ++ [SetNSSDir (nssDir (config inv))]) (initial inv)))
      as ([err certs] & s' & Heq & _).
    cbn in Heq. rewrite Heq.
    destruct err; cbn; [exists 2; split; [done|in_list]|].
    destruct certs; cbn; [exists 0; split; [done|in_list]|].
    rewrite emit_all_trace. cbn. exists 0; split; [done|in_list].
  - destruct (argc inv <? 2); cbn; [exists 99; split; [done|in_list]|].
    destruct (isOk _); cbn; [|exists 1; split; [done|in_list]].
    match goal with
    | |- context [process_document inv w ?d ?f ?o ?u ?s] =>
        destruct (process_document_exits inv w d f o u s) as (n & Hn & Hin)
    end.
    exists n. split; [done|]. revert Hin. rewrite !elem_of_cons. intuition.
Qed.

(** ** Before the document *)

(** X2.  When the flags do not parse, or [-v] or [-h] is given, the run
    only prints on the error stream: the banner, followed by the usage
    text unless the flags parse and [-v] is given.  The status is 99
    when the flags do not parse and 0 otherwise. *)
Theorem banner_only_runs inv w :
  parseOk inv = false ∨ printVersion (config inv) = true
  ∨ printHelp (config inv) = true →
  status (run inv w) = Exit (if parseOk inv then 0 else 99)
  ∧ trace (final (run inv w))
    = VersionBanner
      :: (if parseOk inv && printVersion (config inv) then [] else [UsageText]).
Proof.
  intros H. unfold status, final, run, main. unfold_monad.
  destruct (parseOk inv); cbn; [|done].
  destruct (printVersion (config inv)); cbn; [done|].
  destruct (printHelp (config inv)); cbn; [done|].
  by destruct H as [?|[?|?]].
Qed.

Lemma banner_only_runs_witness :
  trace (final (run Sample.inv_version (Sample.world true false [])))
  = [VersionBanner].
Proof.
  apply (banner_only_runs Sample.inv_version (Sample.world true false [])).
  right. left. reflexivity.
Defined.

(** X3.  When the input document does not open, the run exits with
    status 1 right after the attempt and prints nothing, whatever the
    other flags ask for. *)
Theorem open_failure_exits_1 inv w :
  past_listing inv → 2 ≤ argc inv → isOk (document inv w) = false →
  status (run inv w) = Exit 1
  ∧ trace (final (run inv w))
    = [SetNSSDir (nssDir (config inv));
       OpenDocument (fileName_of inv) (ownerPW_of inv) (userPW_of inv)].
Proof.
  intros Hpast Hargc Hok. rewrite run_to_open by done. by rewrite Hok.
Qed.

Lemma open_failure_exits_1_witness :
  status (run Sample.inv_sign_etsi (Sample.world false false [])) = Exit 1.
Proof.
  apply (open_failure_exits_1 Sample.inv_sign_etsi (Sample.world false false []));
    sample.
Defined.

(** ** The certificate store *)

(** X4.  The password callback gives the password at most once in a
    process: whatever the first call did, every later call gives no
    password and records that the password was wrong. *)
Theorem password_offered_once cfg fl fl' s :
  let s1 := snd (passwordCallback cfg fl s) in
  passwordCallback cfg fl' s1
  = (Val (None, {| wrongPassword := true;
                   passwordNeeded := passwordNeeded fl' |}), s1).
Proof.
  intros s1. subst s1. unfold passwordCallback. unfold_monad. cbn.
  destruct (firstTime s) eqn:Hft; cbn.
  - by destruct (String.length (nssPassword cfg)).
  - by rewrite Hft.
Qed.

Lemma getCerts_fails_lines cfg w s :
  firstTime s = true → store_opens cfg w = false →
  ∃ s', getAvailableSigningCertificates cfg w s = (Val (true, []), s')
        ∧ adds (NSSGetCertificates :: store_error_lines cfg) s s'.
Proof.
  intros Hft Hopen. unfold store_opens in Hopen. unfold store_error_lines.
  unfold getAvailableSigningCertificates,
    SignatureHandler_getAvailableSigningCertificates, passwordCallback.
  unfold_monad.
  destruct (nss_locked (nss w)), (String.length (nssPassword cfg)) eqn:Hlen;
    cbn in *; try discriminate; rewrite ?Hft; cbn; rewrite ?Hopen; cbn;
    (eexists; split; [reflexivity|];
     repeat split; cbn; by rewrite <- !app_assoc).
Qed.

(** The flags parse and [-list-nicks] is given, without [-v] or [-h]. *)
Lemma run_list_nicknames inv w :
  parseOk inv = true → printVersion (config inv) = false →
  printHelp (config inv) = false → listNicknames (config inv) = true →
  run inv w
  = (('(getCertsError, vCerts) ← getAvailableSigningCertificates (config inv) w;
      when getCertsError (exit_with 2);;
      match vCerts with
      | [] => printf NoCertificatesAvailable
      | _ =>
          printf NicknamesAvailable;;
          emit_all (map (λ cert, Stdout (Nickname (getNickName cert))) vCerts)
      end;;
      exit_with 0) : M unit)
      (with_trace [SetNSSDir (nssDir (config inv))] (initial inv)).
Proof.
  intros Hp Hv Hh Hl. unfold run, main. rewrite Hp, Hv, Hh, Hl.
  unfold_monad. cbn.
  destruct (getAvailableSigningCertificates _ _ _) as [[[[] [|]]| |] ?];
    try reflexivity; cbn; by destruct (emit_all _ _) as [[]].
Qed.

(** X5.  With [-list-nicks] and a store that gives its certificates,
    the run exits with status 0 after the nicknames of the certificates,
    in the order of the store, or after the line that there are none.
    No document is opened, even if a file is named. *)
Theorem list_nicknames_lists inv w :
  parseOk inv = true → printVersion (config inv) = false →
  printHelp (config inv) = false → listNicknames (config inv) = true →
  store_opens (config inv) w = true →
  status (run inv w) = Exit 0
  ∧ trace (final (run inv w))
    = [SetNSSDir (nssDir (config inv)); NSSGetCertificates]
      ++ match nss_certificates (nss w) with
         | [] => [Stdout NoCertificatesAvailable]
         | certs =>
             Stdout NicknamesAvailable
             :: map (λ cert, Stdout (Nickname (getNickName cert))) certs
         end.
Proof.
  intros Hp Hv Hh Hl Hstore. rewrite run_list_nicknames by done.
  destruct (getCerts_opens (config inv) w
              (with_trace [SetNSSDir (nssDir (config inv))] (initial inv)))
    as (s' & Heq & Htr & _); [done..|].
  unfold_monad. rewrite Heq. cbn.
  destruct (nss_certificates (nss w)) as [|c certs]; cbn.
  - by rewrite Htr.
  - rewrite emit_all_trace. cbn. rewrite Htr. cbn.
    split; [done|]. by rewrite <- ?app_assoc.
Qed.

Lemma list_nicknames_lists_witness :
  trace (final (run Sample.inv_list_nicks Sample.world_two_certificates))
  = [SetNSSDir ""; NSSGetCertificates; Stdout NicknamesAvailable;
     Stdout (Nickname "alice"); Stdout (Nickname "bob")].
Proof.
  apply (list_nicknames_lists Sample.inv_list_nicks
           Sample.world_two_certificates); sample.
Defined.

(** X6.  With [-list-nicks] and a locked store that cannot be read, the
    run exits with status 2 after two lines: that a password is needed,
    when [-nss-pwd] gave none, or that the password was not accepted,
    when it gave one.  No nickname is listed and no document is opened. *)
Theorem list_nicknames_locked_store inv w :
  parseOk inv = true → printVersion (config inv) = false →
  printHelp (config inv) = false → listNicknames (config inv) = true →
  store_opens (config inv) w = false →
  status (run inv w) = Exit 2
  ∧ trace (final (run inv w))
    = [SetNSSDir (nssDir (config inv)); NSSGetCertificates]
      ++ (if (0 <? String.length (nssPassword (config inv)))%nat
          then [Stdout PasswordNotAccepted; Stdout ProvideCorrectWithNssPwd]
          else [Stdout PasswordNeeded; Stdout ProvideOneWithNssPwd]).
Proof.
  intros Hp Hv Hh Hl Hstore. rewrite run_list_nicknames by done.
  destruct (getCerts_fails_lines (config inv) w
              (with_trace [SetNSSDir (nssDir (config inv))] (initial inv)))
    as (s' & Heq & Htr & _); [done..|].
  unfold_monad. rewrite Heq. cbn. by rewrite Htr.
Qed.

Lemma list_nicknames_locked_store_witness :
  trace (final (run Sample.inv_list_nicks (Sample.world true true [])))
  = [SetNSSDir ""; NSSGetCertificates;
     Stdout PasswordNeeded; Stdout ProvideOneWithNssPwd].
Proof.
  apply (list_nicknames_locked_store Sample.inv_list_nicks
           (Sample.world true true [])); sample.
Defined.

(** ** Signing a field *)

(** X7.  [-sign <N>] with [N] above the count of signature fields (of a
    document with fewer than 2^31 of them) exits with status 2 after a
    line that names the file and [N]; the certificate store is not
    asked and nothing is signed. *)
Theorem sign_number_beyond_count inv w :
  opens inv w → addNewSignature (config inv) = false → 3 ≤ argc inv →
  let count := Z.of_nat (length (getSignatureFields (document inv w))) in
  count < 2 ^ 31 → count < signatureNumber (config inv) →
  status (run inv w) = Exit 2
  ∧ trace (final (run inv w))
    = trace (opened_state inv)
      ++ [Stdout (NoSignatureWithNumber (fileName_of inv)
                    (signatureNumber (config inv)))].
Proof.
  intros Hopen Ha Hargc count Hsmall Hbeyond.
  rewrite run_sign_field by (done || lia).
  assert (H1 : (argc inv =? 2) = false) by lia.
  assert (H2 : (to_int (sigCount_of (document inv w))
                <? signatureNumber (config inv)) = true).
  { unfold sigCount_of. rewrite to_unsigned_small, to_int_small by lia. lia. }
  unfold sign_field. rewrite H1, H2. done.
Qed.

Lemma sign_number_beyond_count_witness :
  trace (final (run Sample.inv_sign_third
                  (Sample.world true false [Sample.signed_field])))
  = [SetNSSDir ""; OpenDocument "in.pdf" None None;
     Stdout (NoSignatureWithNumber "in.pdf" 3)].
Proof.
  apply (sign_number_beyond_count Sample.inv_sign_third
           (Sample.world true false [Sample.signed_field])); sample.
Defined.

Lemma sign_target_signs inv s f :
  0 < signatureNumber (config inv) →
  fields s !! Z.to_nat (signatureNumber (config inv) - 1) = Some f →
  fst (getCheckedSignature f) = None → getNumWidgets f = 1 →
  let cfg := config inv in
  let idx := Z.to_nat (signatureNumber cfg - 1) in
  let t := if etsiCAdESdetached cfg then ETSI_CAdES_detached
           else getSignatureType f in
  ∃ s', sign_target inv s
        = (Exit (if signDocument f t (nth 2 (argv inv) "") (certNickname cfg)
                      (digestName cfg) (nonempty (password cfg))
                      (reason_option cfg)
                 then 0 else 3), s')
    ∧ trace s'
      = trace s ++ [CallGetCheckedSignature idx]
        ++ (if etsiCAdESdetached cfg
            then [CallSetSignatureType idx ETSI_CAdES_detached] else [])
        ++ [CallSignDocument idx (nth 2 (argv inv) "") (certNickname cfg)
              (digestName cfg) (nonempty (password cfg)) (reason_option cfg)]
    ∧ fields s'
      = if etsiCAdESdetached cfg
        then <[idx := setSignatureType ETSI_CAdES_detached f]> (fields s)
        else fields s.
Proof.
  intros Hpos Hf Hunsigned Hwidgets cfg idx t. subst cfg idx t.
  unfold sign_target. unfold_monad.
  rewrite at_lookup with (f := f) by (lia || done). cbn.
  rewrite Hunsigned.
  rewrite bool_decide_eq_false_2 by (by intros [? ?]). cbn.
  destruct (etsiCAdESdetached (config inv)); cbn.
  - unfold modify_field. unfold_monad. cbn. rewrite Hf. cbn.
    rewrite at_lookup with (f := setSignatureType ETSI_CAdES_detached f).
    2: lia.
    2: { cbn. apply list_lookup_insert_eq. by eapply lookup_lt_Some. }
    cbn. rewrite Hwidgets. cbn.
    eexists. split; [reflexivity|]. split; cbn; [|done].
    by rewrite <- !app_assoc.
  - rewrite at_lookup with (f := f) by (lia || done). cbn.
    rewrite Hwidgets. cbn.
    eexists. split; [reflexivity|]. split; cbn; [|done].
    by rewrite <- !app_assoc.
Qed.

(** X8.  When [-sign <N>] gets to a field that is not yet signed and
    has exactly one widget, the run calls the signing operation of that
    field once, with the output file, the nickname, the digest name, the
    key password (none if empty) and the reason (none if empty), and
    exits with status 0 if it succeeds and 3 if it fails.  With [-etsi]
    the type of the field is set to ETSI.CAdES.detached before the call;
    without it the fields are left as they were. *)
Theorem sign_unsigned_field inv w f :
  opens inv w → addNewSignature (config inv) = false →
  sign_request inv (sigCount_of (document inv w)) →
  store_opens (config inv) w = true →
  getSignatureFields (document inv w)
    !! Z.to_nat (signatureNumber (config inv) - 1) = Some f →
  fst (getCheckedSignature f) = None → getNumWidgets f = 1 →
  let cfg := config inv in
  let idx := Z.to_nat (signatureNumber cfg - 1) in
  let t := if etsiCAdESdetached cfg then ETSI_CAdES_detached
           else getSignatureType f in
  status (run inv w)
  = Exit (if signDocument f t (nth 2 (argv inv) "") (certNickname cfg)
                (digestName cfg) (nonempty (password cfg)) (reason_option cfg)
          then 0 else 3)
  ∧ trace (final (run inv w))
    = trace (opened_state inv)
      ++ [NSSGetCertificates; CallGetCheckedSignature idx]
      ++ (if etsiCAdESdetached cfg
          then [CallSetSignatureType idx ETSI_CAdES_detached] else [])
      ++ [CallSignDocument idx (nth 2 (argv inv) "") (certNickname cfg)
            (digestName cfg) (nonempty (password cfg)) (reason_option cfg)]
  ∧ fields (final (run inv w))
    = if etsiCAdESdetached cfg
      then <[idx := setSignatureType ETSI_CAdES_detached f]>
             (getSignatureFields (document inv w))
      else getSignatureFields (document inv w).
Proof.
  intros Hopen Ha Hreq Hstore Hf Hunsigned Hwidgets cfg idx t.
  subst cfg idx t.
  rewrite run_sign_field by (done || apply Hreq).
  rewrite sign_field_to_store by done.
  destruct Hreq as (_ & [Hpos _] & _).
  destruct (getCerts_opens (config inv) w (fields_state inv w))
    as (s' & Heq & Htr & Hfs & _); [done..|].
  unfold_monad. rewrite Heq. cbn.
  destruct (sign_target_signs inv s' f) as (s'' & -> & Htr' & Hfs');
    [done|by rewrite Hfs|done..|].
  unfold status, final. cbn [fst snd].
  rewrite Htr', Hfs', Htr, Hfs. cbn [fields fields_state].
  split; [done|]. split; [|done].
  change (trace (fields_state inv w)) with (trace (opened_state inv)).
  by rewrite <- !app_assoc.
Qed.

Lemma sign_unsigned_field_witness :
  trace (final (run Sample.inv_sign_etsi
                  (Sample.world true false [Sample.empty_field 1])))
  = [SetNSSDir ""; OpenDocument "in.pdf" None None; NSSGetCertificates;
     CallGetCheckedSignature 0; CallSetSignatureType 0 ETSI_CAdES_detached;
     CallSignDocument 0 "out.pdf" "me" "SHA256" None None].
Proof.
  apply (sign_unsigned_field Sample.inv_sign_etsi
           (Sample.world true false [Sample.empty_field 1])
           (Sample.empty_field 1)); sample.
Defined.

(** ** Adding a signature *)

(** X9.  When [-add-signature] gets to the signing call with a field
    name given by [-new-signature-field-name], that name is passed to
    the engine as it is; the run exits with status 0 if the engine
    succeeds and 3 if it fails. *)
Theorem add_signature_keeps_given_name inv w :
  add_request inv w → newSignatureFieldName (config inv) ≠ "" →
  let args := sign_args inv (newSignatureFieldName (config inv)) in
  status (run inv w) = Exit (if sign (document inv w) args then 0 else 3)
  ∧ trace (final (run inv w))
    = trace (opened_state inv) ++ [GetPage1; NSSGetCertificates; DocSign args].
Proof.
  intros Hreq Hname args. subst args.
  pose proof (run_add_request inv w Hreq) as H. cbv zeta in H.
  by rewrite (length_eqb_0 _ Hname) in H.
Qed.

Lemma add_signature_keeps_given_name_witness :
  trace (final (run Sample.inv_add_named (Sample.world true false [])))
  = [SetNSSDir ""; OpenDocument "in.pdf" None None; GetPage1;
     NSSGetCertificates;
     DocSign {| sa_saveFilename := "out.pdf"; sa_certNickname := "me";
                sa_password := None; sa_partialFieldName := "Sig1";
                sa_page := 1; sa_reason := None; sa_ownerPassword := None;
                sa_userPassword := None |}].
Proof.
  apply (add_signature_keeps_given_name Sample.inv_add_named
           (Sample.world true false [])); sample.
Defined.

(** ** Too many file names *)

(** X10.  Without a signing mode, a second file name is rejected with
    the usage text and status 99; this happens after the document has
    been opened, and nothing is reported or dumped. *)
Theorem extra_file_name_rejected inv w :
  opens inv w → addNewSignature (config inv) = false →
  signatureNumber (config inv) ≤ 0 → 2 < argc inv →
  status (run inv w) = Exit 99
  ∧ trace (final (run inv w))
    = trace (opened_state inv) ++ [VersionBanner; UsageText].
Proof.
  intros Hopen Ha Hs Hargc. rewrite run_dump_or_report by done.
  assert (H1 : (2 <? argc inv) = true) by lia.
  unfold dump_or_report. rewrite H1. done.
Qed.

Lemma extra_file_name_rejected_witness :
  status (run Sample.inv_report_two_files
            (Sample.world true false [Sample.signed_field])) = Exit 99.
Proof.
  apply (extra_file_name_rejected Sample.inv_report_two_files
           (Sample.world true false [Sample.signed_field])); sample.
Defined.

(** ** What the signing modes refuse *)

Lemma no_change_app (t1 t2 : list Event) :
  forallb (λ e, negb (is_change e)) (t1 ++ t2)
  = forallb (λ e, negb (is_change e)) t1
    && forallb (λ e, negb (is_change e)) t2.
Proof. apply forallb_app. Qed.

Lemma store_error_lines_no_change cfg :
  forallb (λ e, negb (is_change e)) (store_error_lines cfg) = true.
Proof. unfold store_error_lines. by destruct (_ <? _)%nat. Qed.

(** X11.  When [-add-signature] is given and one of its conditions
    fails (no output file, no nickname, [-etsi], a digest other than
    SHA256, no first page, a store that cannot be read), the run exits
    with status 2 and neither calls the engine to sign nor writes
    anything. *)
Theorem add_signature_refuses inv w :
  opens inv w → addNewSignature (config inv) = true →
  signatureNumber (config inv) ≤ 0 → ¬ add_conditions inv w →
  status (run inv w) = Exit 2
  ∧ forallb (λ e, negb (is_change e)) (trace (final (run inv w))) = true.
Proof.
  intros Hopen Ha Hs Hcond. rewrite run_add_signature by done.
  unfold add_signature.
  destruct (Z.eqb_spec (argc inv) 2) as [Hargc|Hargc]; [done|].
  destruct (String.length (certNickname (config inv)) =? 0)%nat eqn:Hnick;
    [done|].
  destruct (etsiCAdESdetached (config inv)) eqn:Hetsi; [done|].
  destruct (String.eqb_spec (digestName (config inv)) "SHA256")
    as [Hdigest|Hdigest]; [|done].
  unfold_monad. cbn.
  change (hasPage1 (document inv w)) with (hasPage1 (document inv w)).
  destruct (hasPage1 (document inv w)) eqn:Hpage; [|done]. cbn.
  destruct (store_opens (config inv) w) eqn:Hstore.
  - exfalso. apply Hcond. destruct Hopen as (_ & Hargc2 & _).
    repeat split; try done; [lia|].
    intros Hempty. by rewrite Hempty in Hnick.
  - edestruct (getCerts_fails_lines (config inv) w) as (s' & -> & Htr & _);
      [|done|]; [done|].
    cbn. rewrite Htr. cbn. split; [done|].
    apply store_error_lines_no_change.
Qed.

Lemma add_signature_refuses_witness :
  status (run Sample.inv_add (Sample.world true true [])) = Exit 2.
Proof.
  apply (add_signature_refuses Sample.inv_add (Sample.world true true []));
    sample.
  intros (_ & _ & _ & _ & _ & Hstore). discriminate Hstore.
Defined.

Lemma sign_target_refuses inv s f :
  0 < signatureNumber (config inv) →
  fields s !! Z.to_nat (signatureNumber (config inv) - 1) = Some f →
  ¬ (fst (getCheckedSignature f) = None ∧ getNumWidgets f = 1) →
  ∃ s' es, sign_target inv s = (Exit 2, s') ∧ trace s' = trace s ++ es
           ∧ forallb (λ e, negb (is_sign_call e)) es = true.
Proof.
  intros Hpos Hf Hnot. unfold sign_target. unfold_monad.
  rewrite at_lookup with (f := f) by (lia || done). cbn.
  destruct (getCheckedSignature f) as [[signature|] size] eqn:Hsig; cbn.
  { do 2 eexists. split; [reflexivity|]. cbn. rewrite <- app_assoc.
    split; [reflexivity|done]. }
  assert (H1 : (getNumWidgets f =? 1) = false).
  { apply Z.eqb_neq. intros Hw. by apply Hnot. }
  destruct (etsiCAdESdetached (config inv)); cbn.
  - unfold modify_field. unfold_monad. cbn. rewrite Hf. cbn.
    rewrite at_lookup with (f := setSignatureType ETSI_CAdES_detached f).
    2: lia.
    2: { cbn. apply list_lookup_insert_eq. by eapply lookup_lt_Some. }
    cbn. rewrite H1. cbn.
    do 2 eexists. split; [reflexivity|]. cbn. rewrite <- !app_assoc.
    split; [reflexivity|done].
  - rewrite at_lookup with (f := f) by (lia || done). cbn. rewrite H1. cbn.
    do 2 eexists. split; [reflexivity|]. cbn. rewrite <- !app_assoc.
    split; [reflexivity|done].
Qed.

(** X12.  When [-sign <N>] is given without [-add-signature] and one of
    its conditions fails (no output file, [N] above the count, no
    nickname, a store that cannot be read, a field already signed or
    without exactly one widget), the run exits with status 2 and never
    calls the signing operation. *)
Theorem sign_field_refuses inv w :
  opens inv w → addNewSignature (config inv) = false →
  0 < signatureNumber (config inv) → ¬ sign_conditions inv w →
  status (run inv w) = Exit 2
  ∧ forallb (λ e, negb (is_sign_call e)) (trace (final (run inv w))) = true.
Proof.
  intros Hopen Ha Hpos Hcond. rewrite run_sign_field by done.
  destruct (Z.eqb_spec (argc inv) 2) as [Hargc|Hargc].
  { unfold sign_field. destruct (Z.eqb_spec (argc inv) 2); [done|lia]. }
  destruct (Z.ltb_spec (to_int (sigCount_of (document inv w)))
              (signatureNumber (config inv))) as [Hlt|Hle].
  { unfold sign_field.
    destruct (Z.eqb_spec (argc inv) 2); [lia|].
    destruct (Z.ltb_spec (to_int (sigCount_of (document inv w)))
                (signatureNumber (config inv))); [done|lia]. }
  destruct (String.length (certNickname (config inv)) =? 0)%nat eqn:Hnick.
  { unfold sign_field.
    destruct (Z.eqb_spec (argc inv) 2); [lia|].
    destruct (Z.ltb_spec (to_int (sigCount_of (document inv w)))
                (signatureNumber (config inv))); [lia|].
    by rewrite Hnick. }
  assert (Hreq : sign_request inv (sigCount_of (document inv w))).
  { destruct Hopen as (_ & Hargc2 & _). repeat split; try lia.
    intros Hempty. by rewrite Hempty in Hnick. }
  destruct (store_opens (config inv) w) eqn:Hstore.
  - rewrite sign_field_to_store by done.
    destruct (getCerts_opens (config inv) w (fields_state inv w))
      as (s' & Heq & Htr & Hfs & _); [done..|].
    unfold_monad. rewrite Heq. cbn.
    destruct (lookup_lt_is_Some_2 (getSignatureFields (document inv w))
                (Z.to_nat (signatureNumber (config inv) - 1))) as [f Hf].
    { pose proof (to_int_to_unsigned_le
                    (Z.of_nat (length (getSignatureFields (document inv w))))).
      unfold sigCount_of in Hle. lia. }
    destruct (sign_target_refuses inv s' f) as (s'' & es & -> & Htr' & Hes);
      [done|by rewrite Hfs| |].
    + intros [Hunsigned Hwidgets]. apply Hcond.
      split; [done|]. split; [done|]. by exists f.
    + unfold status, final. cbn [fst snd]. split; [done|].
      rewrite Htr', Htr, !forallb_app, Hes. done.
  - destruct (sign_field_store_fails inv w (fileName_of inv)
                (sigCount_of (document inv w)) (fields_state inv w))
      as (s' & m1 & m2 & -> & (Htr & _) & _); try done.
    cbn. rewrite Htr. by repeat split.
Qed.

Lemma sign_field_refuses_witness :
  status (run Sample.inv_sign (Sample.world true false [Sample.empty_field 2]))
  = Exit 2.
Proof.
  apply (sign_field_refuses Sample.inv_sign
           (Sample.world true false [Sample.empty_field 2])); sample.
  intros (_ & _ & f & Hf & _ & Hw). vm_compute in Hf. injection Hf as <-.
  discriminate Hw.
Defined.

(** ** More on the report *)

Lemma report_ranges_no_change i f :
  forallb (λ e, negb (is_change e)) (report_ranges i f) = true.
Proof.
  unfold report_ranges.
  destruct (getSignedRangeBounds f) as [|r0 [|r1 [|r2 [|r3 [|]]]]]; try done.
  by destruct (getCheckedSignature f).
Qed.

Lemma report_signature_no_change cfg w i f :
  forallb (λ e, negb (is_change e)) (report_signature cfg w i f) = true.
Proof.
  unfold report_signature.
  rewrite !forallb_app, report_ranges_no_change. cbn.
  by destruct (_ || _).
Qed.

Lemma report_all_no_change cfg w fs : ∀ i,
  forallb (λ e, negb (is_change e)) (report_all cfg w i fs) = true.
Proof.
  induction fs as [|f fs IH]; intros i; [done|]. cbn [report_all].
  by rewrite forallb_app, report_signature_no_change, IH.
Qed.

(** X13.  A report changes nothing: it makes no signing call, sets no
    signature type and writes no file, and it leaves the fields of the
    document as they were.  When the document has a signature field its
    exit status is 0, whatever the validation of the signatures gives. *)
Theorem report_changes_nothing inv w :
  report_mode inv w →
  forallb (λ e, negb (is_change e)) (trace (final (run inv w))) = true
  ∧ fields (final (run inv w)) = getSignatureFields (document inv w)
  ∧ (1 ≤ sigCount_of (document inv w) → status (run inv w) = Exit 0).
Proof.
  intros Hmode.
  destruct (Z.le_gt_cases 1 (sigCount_of (document inv w))) as [H1|H1].
  - rewrite run_report_some by done. cbn.
    split; [|done]. apply report_all_no_change.
  - destruct (run_report inv w Hmode) as [_ Htr]. rewrite Htr.
    destruct Hmode as (Hopen & Hargc & Ha & Hs & Hd).
    split; [|split; [|lia]].
    + rewrite !forallb_app, report_all_no_change.
      by destruct (1 <=? _).
    + rewrite run_dump_or_report by done.
      pose proof (sigCount_le_length (document inv w)) as Hn.
      assert (H0 : sigCount_of (document inv w) = 0) by lia.
      unfold dump_or_report. rewrite H0, Hargc. done.
Qed.

Lemma report_changes_nothing_witness :
  status (run Sample.inv_report (Sample.world true false [Sample.empty_field 1]))
  = Exit 0.
Proof.
  apply (report_changes_nothing Sample.inv_report
           (Sample.world true false [Sample.empty_field 1])); sample.
Defined.

Lemma validate_calls_app t1 t2 :
  validate_calls (t1 ++ t2) = validate_calls t1 ++ validate_calls t2.
Proof. apply omap_app. Qed.

Lemma validate_calls_report_signature cfg w i f :
  validate_calls (report_signature cfg w i f)
  = [(Z.to_nat i,
      (negb (dontVerifyCert cfg), false, -1,
       negb (noOCSPRevocationCheck cfg), useAIACertFetch cfg))].
Proof.
  unfold report_signature. rewrite !validate_calls_app.
  assert (Hranges : validate_calls (report_ranges i f) = []).
  { unfold report_ranges.
    destruct (getSignedRangeBounds f) as [|r0 [|r1 [|r2 [|r3 [|]]]]]; try done.
    by destruct (getCheckedSignature f). }
  rewrite Hranges. cbn. by destruct (_ || _).
Qed.

Lemma validate_calls_report_all cfg w fs : ∀ k,
  validate_calls (report_all cfg w (Z.of_nat k) fs)
  = imap (λ i _, ((k + i)%nat,
                  (negb (dontVerifyCert cfg), false, -1,
                   negb (noOCSPRevocationCheck cfg), useAIACertFetch cfg)))
      fs.
Proof.
  induction fs as [|f fs IH]; intros k; [done|]. cbn [report_all].
  rewrite validate_calls_app, validate_calls_report_signature.
  replace (Z.of_nat k + 1) with (Z.of_nat (S k)) by lia. rewrite IH. cbn.
  rewrite Nat2Z.id, Nat.add_0_r. f_equal.
  apply imap_ext. intros i x _. cbn. do 2 f_equal. lia.
Qed.

(** X14.  A report validates every signature field within the count
    once, in the order of the document, asking for the certificate check
    unless [-nocert] is given, for the OCSP check unless [-no-ocsp] is
    given, for the fetching of certificates only with [-aia], never for
    a forced revalidation, and with the validation time -1 (now). *)
Theorem report_validates_each_field_once inv w :
  report_mode inv w →
  let cfg := config inv in
  validate_calls (trace (final (run inv w)))
  = imap (λ i _, (i, (negb (dontVerifyCert cfg), false, -1,
                      negb (noOCSPRevocationCheck cfg), useAIACertFetch cfg)))
      (take (Z.to_nat (sigCount_of (document inv w)))
         (getSignatureFields (document inv w))).
Proof.
  intros Hmode cfg. destruct (run_report inv w Hmode) as [_ ->].
  rewrite !validate_calls_app.
  change 0 with (Z.of_nat 0). rewrite validate_calls_report_all.
  done.
Qed.

Lemma report_validates_each_field_once_witness :
  validate_calls
    (trace (final (run Sample.inv_report
                     (Sample.world true false
                        [Sample.signed_field; Sample.empty_field 1]))))
  = [(0%nat, (true, false, -1, true, false));
     (1%nat, (true, false, -1, true, false))].
Proof.
  apply (report_validates_each_field_once Sample.inv_report
           (Sample.world true false [Sample.signed_field; Sample.empty_field 1]));
    sample.
Defined.

(** X15.  For a field whose signed range bounds are not four numbers, a
    turn of the report loop prints no line about the ranges or about the
    total document, and does not ask for the checked signature. *)
Theorem no_range_lines_without_four_bounds cfg w i f :
  length (getSignedRangeBounds f) ≠ 4%nat →
  ∀ e, e ∈ report_signature cfg w i f →
       e ≠ CallGetCheckedSignature (Z.to_nat i)
       ∧ e ≠ Stdout TotalDocumentSigned ∧ e ≠ Stdout NotTotalDocumentSigned
       ∧ ∀ r0 r1 r2 r3, e ≠ Stdout (SignedRanges r0 r1 r2 r3).
Proof.
  intros Hlen e. unfold report_signature.
  assert (Hranges : report_ranges i f = []).
  { unfold report_ranges.
    destruct (getSignedRangeBounds f) as [|r0 [|r1 [|r2 [|r3 [|]]]]];
      done. }
  rewrite Hranges, !elem_of_app, !elem_of_cons, !elem_of_nil.
  intros [H|[[]|[H|H]]].
  - repeat (destruct H as [H|H]; [subst e; by repeat split|]). done.
  - destruct H as [->|[]]. by repeat split.
  - destruct (_ || _); [by apply elem_of_nil in H|].
    apply list_elem_of_singleton in H as ->. by repeat split.
Qed.

Lemma no_range_lines_without_four_bounds_witness :
  Stdout TotalDocumentSigned
  ∉ report_signature (config Sample.inv_report) (Sample.world true false [])
      0 (Sample.empty_field 1).
Proof.
  intros Hin.
  by destruct (no_range_lines_without_four_bounds (config Sample.inv_report)
                 (Sample.world true false []) 0 (Sample.empty_field 1)
                 ltac:(vm_compute; discriminate) _ Hin) as (_ & H & _).
Defined.

(** ** More on the dump *)

Lemma all_signed_Forall fs :
  all_signed fs = true ↔ Forall (λ f, is_Some (getSignature f)) fs.
Proof.
  unfold all_signed. induction fs as [|f fs IH]; cbn.
  - split; [constructor|done].
  - rewrite andb_true_iff, bool_decide_eq_true, IH. split.
    + intros [Hf Hfs]. by constructor.
    + intros H. by inversion H.
Qed.

Lemma dump_all_last file count fs : ∀ k,
  all_signed fs = false →
  last (dump_all file count k fs)
  = Some (Stdout (CannotDump (k + Z.of_nat (length (signed_prefix fs))))).
Proof.
  induction fs as [|f fs IH]; intros k Hall; [done|].
  cbn [dump_all signed_prefix]. unfold dump_one.
  unfold all_signed in Hall. cbn [forallb] in Hall.
  destruct (getSignature f) as [signature|] eqn:Hsig.
  - rewrite bool_decide_eq_true_2 in Hall |- * by done.
    cbn [andb] in Hall. rewrite last_app, (IH (k + 1) Hall).
    cbn [length]. do 3 f_equal. lia.
  - rewrite bool_decide_eq_false_2 by (by intros [? ?]).
    cbn. by rewrite Z.add_0_r.
Qed.

(** X16.  In dump mode, on a document with at least one and fewer than
    2^31 signature fields, the exit status is 0 when every field has a
    signature; otherwise it is 3, and the run stops at the first field
    without one: the last thing it does is to print that the signature
    of that index cannot be dumped. *)
Theorem dump_exit_status inv w :
  dump_mode inv w →
  let fs := getSignatureFields (document inv w) in
  1 ≤ Z.of_nat (length fs) < 2 ^ 31 →
  (Forall (λ f, is_Some (getSignature f)) fs → status (run inv w) = Exit 0)
  ∧ (¬ Forall (λ f, is_Some (getSignature f)) fs →
     status (run inv w) = Exit 3
     ∧ last (trace (final (run inv w)))
       = Some (Stdout (CannotDump (Z.of_nat (length (signed_prefix fs)))))).
Proof.
  intros Hmode fs Hcount. rewrite run_dump by done. fold fs.
  destruct (all_signed fs) eqn:Hall.
  - split; [done|]. intros Hnot. by apply all_signed_Forall in Hall.
  - split.
    + intros Hforall. apply all_signed_Forall in Hforall. congruence.
    + intros _. split; [done|]. unfold final. cbn [snd with_trace trace].
      rewrite !last_app, (dump_all_last _ _ _ 0 Hall). done.
Qed.

Lemma dump_exit_status_witness :
  status (run Sample.inv_dump
            (Sample.world true false [Sample.signed_field; Sample.empty_field 1]))
  = Exit 3.
Proof.
  apply (dump_exit_status Sample.inv_dump
           (Sample.world true false [Sample.signed_field; Sample.empty_field 1]));
    sample.
  intros H. inversion H as [|? ? _ H2]. inversion H2 as [|? ? [? H3] _].
  discriminate H3.
Defined.

(** ** The characters of the random field name *)

(** X17.  The conversion used for the characters of the random field
    name gives, for every value from 0 to 15, the hexadecimal digit of
    that value in upper case. *)
Theorem hex_char_is_hex_digit v :
  0 ≤ v ≤ 15 →
  String.get (Z.to_nat v) "0123456789ABCDEF" = Some (hex_char v).
Proof.
  intros Hv.
  assert (H : v = 0 ∨ v = 1 ∨ v = 2 ∨ v = 3 ∨ v = 4 ∨ v = 5 ∨ v = 6 ∨ v = 7
              ∨ v = 8 ∨ v = 9 ∨ v = 10 ∨ v = 11 ∨ v = 12 ∨ v = 13 ∨ v = 14
              ∨ v = 15) by lia.
  repeat (destruct H as [->|H]; [reflexivity|]). subst. reflexivity.
Qed.

Lemma hex_char_is_hex_digit_witness :
  String.get 10 "0123456789ABCDEF" = Some (hex_char 10).
Proof. apply (hex_char_is_hex_digit 10). lia. Defined.

(** ** Calls and writes stay in their mode *)

Section Extends.
Context (Q : Event → bool).

Lemma extends_ret {A} (a : A) : extends Q (mret a).
Proof. intros s. exists []. by rewrite app_nil_r. Qed.

Lemma extends_exit {A} n : extends Q (@exit_with A n).
Proof. intros s. exists []. by rewrite app_nil_r. Qed.

Lemma extends_throw {A} : extends Q (@throw_out_of_range A).
Proof. intros s. exists []. by rewrite app_nil_r. Qed.

Lemma extends_get {A} (f : State → A) : extends Q (get f).
Proof. intros s. exists []. by rewrite app_nil_r. Qed.

Lemma extends_set_fields fs : extends Q (set_fields fs).
Proof. intros s. exists []. by rewrite app_nil_r. Qed.

Lemma extends_set_firstTime b : extends Q (set_firstTime b).
Proof. intros s. exists []. by rewrite app_nil_r. Qed.

Lemma extends_set_fieldName n : extends Q (set_fieldName n).
Proof. intros s. exists []. by rewrite app_nil_r. Qed.

Lemma extends_set_drawn n : extends Q (set_drawn n).
Proof. intros s. exists []. by rewrite app_nil_r. Qed.

Lemma extends_emit e : Q e = true → extends Q (emit e).
Proof. intros He s. exists [e]. cbn. by rewrite He. Qed.

Lemma extends_bind {A B} (m : M A) (k : A → M B) :
  extends Q m → (∀ a, extends Q (k a)) → extends Q (m ≫= k).
Proof.
  intros Hm Hk s. destruct (Hm s) as (es & Htr & Hes).
  unfold mbind, M_bind. destruct (m s) as [[a| |] s']; cbn in *;
    [|by exists es..].
  destruct (Hk a s') as (es' & Htr' & Hes').
  exists (es ++ es'). rewrite Htr', Htr, forallb_app, Hes, Hes'.
  by rewrite app_assoc.
Qed.

Lemma extends_when b (m : M unit) : extends Q m → extends Q (when b m).
Proof. intros Hm. destruct b; [done|apply extends_ret]. Qed.

Lemma extends_emit_all es : forallb Q es = true → extends Q (emit_all es).
Proof.
  intros Hes s. exists es. by rewrite emit_all_trace.
Qed.

Lemma extends_for_each (body : Z → M unit) indices :
  (∀ i, extends Q (body i)) → extends Q (for_each indices body).
Proof.
  intros Hbody. induction indices as [|i indices IH]; cbn [for_each].
  - apply extends_ret.
  - apply extends_bind; [done|]. by intros _.
Qed.
End Extends.

(** One step of the proof that a piece of the program extends the trace
    within [Q]: by the shape of the piece. *)
Ltac extends_step :=
  lazymatch goal with
  | |- extends _ (mbind _ _) => apply extends_bind; [|intros]
  | |- extends _ (mret _) => apply extends_ret
  | |- extends _ (exit_with _) => apply extends_exit
  | |- extends _ throw_out_of_range => apply extends_throw
  | |- extends _ (when _ _) => apply extends_when
  | |- extends _ (get _) => apply extends_get
  | |- extends _ (set_fields _) => apply extends_set_fields
  | |- extends _ (set_firstTime _) => apply extends_set_firstTime
  | |- extends _ (set_fieldName _) => apply extends_set_fieldName
  | |- extends _ (set_drawn _) => apply extends_set_drawn
  | |- extends _ (emit _) => apply extends_emit
  | |- extends _ (printf _) => apply extends_emit
  | |- extends _ (fprintf_stderr _) => apply extends_emit
  | |- extends _ (if ?b then _ else _) => destruct b
  | |- extends _ (match ?x with _ => _ end) => destruct x
  end.

Section Harmless.
Context (Q : Event → bool).
Context (harmless : ∀ e, is_change e = false → Q e = true).

Ltac harmless_steps := repeat (extends_step; try (by apply harmless)).

Lemma extends_print_version_usage usage :
  extends Q (print_version_usage usage).
Proof using harmless. unfold print_version_usage. harmless_steps. Qed.

Lemma extends_at i : extends Q (at_ i).
Proof. unfold at_. harmless_steps. Qed.

Lemma extends_modify_field idx g : extends Q (modify_field idx g).
Proof. unfold modify_field. harmless_steps. Qed.

Lemma extends_passwordCallback cfg fl : extends Q (passwordCallback cfg fl).
Proof. unfold passwordCallback. harmless_steps. Qed.

Lemma extends_getAvailableSigningCertificates cfg w :
  extends Q (getAvailableSigningCertificates cfg w).
Proof using harmless.
  unfold getAvailableSigningCertificates,
    SignatureHandler_getAvailableSigningCertificates.
  repeat lazymatch goal with
         | |- extends _ (passwordCallback _ _) =>
             apply extends_passwordCallback
         | _ => extends_step; try (by apply harmless)
         end.
Qed.

Lemma extends_append_random_name w n : extends Q (append_random_name w n).
Proof.
  induction n as [|n IH].
  - change (extends Q (mret tt : M unit)). apply extends_ret.
  - change (extends Q (value ← uniform_int_distribution 1 15 w;
                       name ← get fieldName;
                       set_fieldName (name +:+ String (hex_char value) "");;
                       append_random_name w n)).
    unfold uniform_int_distribution.
    repeat lazymatch goal with
           | |- extends _ (append_random_name _ _) => apply IH
           | _ => extends_step
           end.
Qed.

Lemma forallb_harmless es :
  forallb (λ e, negb (is_change e)) es = true → forallb Q es = true.
Proof using harmless.
  rewrite !forallb_forall. intros H e He. apply harmless.
  apply negb_true_iff. by apply H.
Qed.

Lemma extends_add_signature inv w doc ownerPW userPW :
  (∀ args, Q (DocSign args) = true) →
  extends Q (add_signature inv w doc ownerPW userPW).
Proof using harmless.
  intros Hsign. unfold add_signature.
  repeat lazymatch goal with
         | |- extends _ (getAvailableSigningCertificates _ _) =>
             apply extends_getAvailableSigningCertificates
         | |- extends _ (append_random_name _ _) =>
             apply extends_append_random_name
         | |- extends _ (emit (DocSign _)) => apply extends_emit, Hsign
         | _ => extends_step; try (by apply harmless)
         end.
Qed.

Lemma extends_sign_field inv w file sigCount :
  (∀ idx t, Q (CallSetSignatureType idx t) = true) →
  (∀ idx out nick digest pw rs,
     Q (CallSignDocument idx out nick digest pw rs) = true) →
  extends Q (sign_field inv w file sigCount).
Proof using harmless.
  intros Hset Hsign. unfold sign_field, sign_target.
  repeat lazymatch goal with
         | |- extends _ (getAvailableSigningCertificates _ _) =>
             apply extends_getAvailableSigningCertificates
         | |- extends _ (at_ _) => apply extends_at
         | |- extends _ (modify_field _ _) => apply extends_modify_field
         | |- extends _ (emit (CallSetSignatureType _ _)) =>
             apply extends_emit, Hset
         | |- extends _ (emit (CallSignDocument _ _ _ _ _ _)) =>
             apply extends_emit, Hsign
         | _ => extends_step; try (by apply harmless)
         end.
Qed.

Lemma extends_dumpSignature sig_num sigCount f file :
  (∀ path content, Q (FileWrite path content) = true) →
  extends Q (dumpSignature sig_num sigCount f file).
Proof using harmless.
  intros Hwrite. unfold dumpSignature.
  repeat lazymatch goal with
         | |- extends _ (emit (FileWrite _ _)) => apply extends_emit, Hwrite
         | _ => extends_step; try (by apply harmless)
         end.
Qed.

Lemma extends_dump_or_report inv w file sigCount :
  (dumpSignatures (config inv) = true →
   ∀ path content, Q (FileWrite path content) = true) →
  extends Q (dump_or_report inv w file sigCount).
Proof using harmless.
  intros Hwrite. unfold dump_or_report.
  destruct (dumpSignatures (config inv));
  repeat lazymatch goal with
         | |- extends _ (print_version_usage _) =>
             apply extends_print_version_usage
         | |- extends _ (for_each _ _) => apply extends_for_each; intros
         | |- extends _ (at_ _) => apply extends_at
         | |- extends _ (dumpSignature _ _ _ _) =>
             apply extends_dumpSignature; auto
         | |- extends _ (emit_all (report_signature _ _ _ _)) =>
             apply extends_emit_all, forallb_harmless,
               report_signature_no_change
         | _ => extends_step; try (by apply harmless)
         end.
Qed.
End Harmless.

Lemma stops_exit {A} n : stops (@exit_with A n).
Proof. by intros s a. Qed.

Lemma stops_bind {A B} (m : M A) (k : A → M B) :
  (∀ a, stops (k a)) → stops (m ≫= k).
Proof.
  intros Hk s b. unfold mbind, M_bind.
  destruct (m s) as [[a| |] s']; [apply Hk|done..].
Qed.

Lemma extends_bind_stops {A B} Q (m : M A) (k : A → M B) :
  extends Q m → stops m → extends Q (m ≫= k).
Proof.
  intros Hm Hstops s. destruct (Hm s) as (es & Htr & Hes).
  pose proof (Hstops s) as Hs. unfold mbind, M_bind.
  destruct (m s) as [[a| |] s']; cbn in *; [by destruct (Hs a)|by exists es..].
Qed.

Lemma stops_add_signature inv w doc ownerPW userPW :
  stops (add_signature inv w doc ownerPW userPW).
Proof.
  unfold add_signature.
  repeat (apply stops_bind; intros).
  lazymatch goal with a : (bool * _)%type |- _ => destruct a end.
  repeat (apply stops_bind; intros). apply stops_exit.
Qed.

Lemma stops_sign_field inv w file sigCount :
  stops (sign_field inv w file sigCount).
Proof.
  unfold sign_field, sign_target.
  repeat (apply stops_bind; intros).
  lazymatch goal with a : (bool * _)%type |- _ => destruct a end.
  repeat (apply stops_bind; intros). apply stops_exit.
Qed.

Lemma in_its_mode_harmless inv e :
  is_change e = false → in_its_mode inv e = true.
Proof. by destruct e. Qed.

Lemma extends_process_document inv w doc file ownerPW userPW :
  extends (in_its_mode inv) (process_document inv w doc file ownerPW userPW).
Proof.
  pose proof (in_its_mode_harmless inv) as Hh.
  unfold process_document.
  destruct (addNewSignature (config inv)) eqn:Ha,
    (0 <? signatureNumber (config inv)) eqn:Hs; cbn [andb when].
  - apply extends_bind_stops.
    + repeat lazymatch goal with
             | |- extends _ (print_version_usage _) =>
                 by apply extends_print_version_usage
             | _ => extends_step
             end.
    + apply stops_bind. intros _. apply stops_exit.
  - apply extends_bind; [apply extends_ret|intros _].
    apply extends_bind_stops; [|apply stops_add_signature].
    apply extends_add_signature; [done|].
    intros args. cbn. by rewrite Ha, Hs.
  - apply extends_bind; [apply extends_ret|intros _].
    apply extends_bind; [apply extends_ret|intros _].
    apply extends_bind; [apply extends_set_fields|intros _].
    apply extends_bind_stops; [|apply stops_sign_field].
    apply extends_sign_field; [done|..]; intros; cbn; by rewrite Ha, Hs.
  - apply extends_bind; [apply extends_ret|intros _].
    apply extends_bind; [apply extends_ret|intros _].
    apply extends_bind; [apply extends_set_fields|intros _].
    apply extends_bind; [apply extends_ret|intros _].
    apply extends_dump_or_report; [done|].
    intros Hd path content. cbn. by rewrite Ha, Hs, Hd.
Qed.

Lemma extends_main inv w : extends (in_its_mode inv) (main inv w).
Proof.
  pose proof (in_its_mode_harmless inv) as Hh.
  unfold main.
  repeat lazymatch goal with
         | |- extends _ (print_version_usage _) =>
             by apply extends_print_version_usage
         | |- extends _ (getAvailableSigningCertificates _ _) =>
             by apply extends_getAvailableSigningCertificates
         | |- extends _ (process_document _ _ _ _ _ _) =>
             apply extends_process_document
         | |- extends _ (emit_all (map _ _)) =>
             apply extends_emit_all, forallb_forall;
             intros ? (? & <- & _)%in_map_iff; reflexivity
         | _ => extends_step; try (by apply Hh)
         end.
Qed.

(** X18.  In every run, a call or a write occurs only in the mode it
    belongs to: the engine is asked to add a signature only under
    [-add-signature] without [-sign <N>]; the signature type of a field
    is set and the signing operation of a field is called only under
    [-sign <N>] with [N > 0] and without [-add-signature]; a file is
    written only under [-dump] with neither signing mode. *)
Theorem calls_stay_in_their_mode inv w :
  forallb (in_its_mode inv) (trace (final (run inv w))) = true.
Proof.
  destruct (extends_main inv w (initial inv)) as (es & Htr & Hes).
  unfold final, run. by rewrite Htr.
Qed.
